(** * go-mcp-sdk: registration, schema synthesis and JSON-RPC routing

    A shallow embedding of the MCP server of [pkg/mcp] (server.go, rpc.go
    and the schema generator) and of the wire types of [pkg/protocol].

    - Go maps ([Server.tools], [Server.sessions]) are [gmap string _].
    - [reflect.Type] values are the inductive [reflect.Type_]; only what
      the server inspects is kept ([Kind], [Elem], [NumIn]/[In],
      [NumField]/[Field], [Implements] for [context.Context]).
    - An [http.ResponseWriter] is the record [ResponseWriter] of what was
      written to it; a Go panic is the outcome [Panic].
    - The Go standard library and the third-party schema reflector are not
      part of the repository.  Decoding a JSON object into a struct follows
      the documented behaviour of [encoding/json] (module [json]); what is
      left open (the values of parameter fields, case folding of keys,
      which number literals fit a [float64], the schema reflector) is
      collected in the class [Runtime].
    - A registered handler is a [HandlerValue]: its reflected type and its
      [Call], which returns the handler's results or panics, as
      [reflect.Value.Call] does. *)

From stdpp Require Import base option list strings pretty gmap.
From Stdlib Require Import ZArith Ascii.

Set Warnings "-register-all".

Local Open Scope string_scope.

(** ** JSON documents *)

(** A JSON text, by its abstract syntax.  Numbers keep their literal. *)
Inductive JSON : Type :=
| JNull
| JBool (b : bool)
| JNumber (literal : string)
| JString (s : string)
| JArray (elems : list JSON)
| JObject (members : list (string * JSON)).

(** [json.RawMessage]: [None] is the nil (empty) slice. *)
Definition RawMessage := option JSON.

(** ** The part of package reflect the server uses *)

Module reflect.

Inductive Kind : Set :=
| Invalid | Bool | Int | Int8 | Int16 | Int32 | Int64
| Uint | Uint8 | Uint16 | Uint32 | Uint64 | Uintptr
| Float32 | Float64 | Complex64 | Complex128
| Array | Chan | Func | Interface | Map | Pointer | Slice
| String | Struct | UnsafePointer.

#[global] Instance Kind_eq_dec : EqDecision Kind.
Proof. solve_decision. Defined.

(** Kinds of the types whose structure the server never looks into. *)
Inductive PlainKind : Set :=
| PBool | PInt | PInt8 | PInt16 | PInt32 | PInt64
| PUint | PUint8 | PUint16 | PUint32 | PUint64 | PUintptr
| PFloat32 | PFloat64 | PComplex64 | PComplex128
| PArray | PChan | PInterface | PMap | PSlice | PString | PUnsafePointer.

Definition plainKind (p : PlainKind) : Kind :=
  match p with
  | PBool => Bool | PInt => Int | PInt8 => Int8 | PInt16 => Int16
  | PInt32 => Int32 | PInt64 => Int64 | PUint => Uint | PUint8 => Uint8
  | PUint16 => Uint16 | PUint32 => Uint32 | PUint64 => Uint64
  | PUintptr => Uintptr | PFloat32 => Float32 | PFloat64 => Float64
  | PComplex64 => Complex64 | PComplex128 => Complex128
  | PArray => Array | PChan => Chan | PInterface => Interface
  | PMap => Map | PSlice => Slice | PString => String
  | PUnsafePointer => UnsafePointer
  end.

(** [reflect.StructTag]: the key/value pairs of the tag string. *)
Definition StructTag := list (string * string).

(** [StructTag.Get]: the value of the first pair under [key], or the empty
    string. *)
Fixpoint Get (tag : StructTag) (key : string) : string :=
  match tag with
  | [] => ""%string
  | (k, v) :: rest => if decide (k = key) then v else Get rest key
  end.

(** [reflect.StructField], over the type of field types.  [Exported] is
    [PkgPath == ""]; [Anonymous] marks an embedded field. *)
Record StructField (T : Type) : Type := MkStructField {
  Name : string;
  FieldType : T;
  Tag : StructTag;
  Exported : bool;
  Anonymous : bool
}.
Arguments MkStructField {T} _ _ _ _ _.
Arguments Name {T} _.
Arguments FieldType {T} _.
Arguments Tag {T} _.
Arguments Exported {T} _.
Arguments Anonymous {T} _.

(** A field that is not embedded. *)
Definition mkField {T : Type} (name : string) (type : T) (tag : StructTag)
  (exported : bool) : StructField T :=
  MkStructField name type tag exported false.

(** [reflect.Type].  The flag [ctx] of each constructor is the answer of
    [Implements(reflect.TypeOf(( *context.Context)(nil)).Elem())]: a named
    type of any kind can carry the methods of [context.Context]. *)
Inductive Type_ : Type :=
| Plain (k : PlainKind) (ctx : bool)
| PtrTo (elem : Type_) (ctx : bool)
| StructOf (fields : list (StructField Type_)) (ctx : bool)
| FuncOf (ins : list Type_) (ctx : bool).

Definition Kind_of (t : Type_) : Kind :=
  match t with
  | Plain k _ => plainKind k
  | PtrTo _ _ => Pointer
  | StructOf _ _ => Struct
  | FuncOf _ _ => Func
  end.

Definition Implements_Context (t : Type_) : bool :=
  match t with
  | Plain _ c | PtrTo _ c | StructOf _ c | FuncOf _ c => c
  end.

(** [Type.Elem] for a pointer type (the server calls it on pointers only). *)
Definition Elem (t : Type_) : option Type_ :=
  match t with
  | PtrTo e _ => Some e
  | _ => None
  end.

(** [Type.NumIn] and [Type.In] of a function type. *)
Definition Ins (t : Type_) : list Type_ :=
  match t with
  | FuncOf ins _ => ins
  | _ => []
  end.

Definition NumIn (t : Type_) : nat := List.length (Ins t).

(** [Type.NumField] and [Type.Field] of a struct type. *)
Definition Fields (t : Type_) : list (StructField Type_) :=
  match t with
  | StructOf fs _ => fs
  | _ => []
  end.

End reflect.

(** ** Errors *)

(** Go [error] values.  [nil] is [None] of [option error]. *)
Inductive error : Type :=
| SyntaxError (msg : string)          (* encoding/json: the bytes are not JSON *)
| UnmarshalTypeError (field : string) (* encoding/json: value does not fit the target *)
| Errorf (msg : string)               (* fmt.Errorf / errors.New *)
| Wrapf (msg : string) (cause : error). (* fmt.Errorf with %w: msg ++ cause *)

Fixpoint Error (e : error) : string :=
  match e with
  | SyntaxError msg => msg
  | UnmarshalTypeError f => "json: cannot unmarshal value into Go struct field " ++ f
  | Errorf msg => msg
  | Wrapf msg cause => msg ++ Error cause
  end.

(** What a Go call can do: return, or panic. *)
Inductive Outcome (A : Type) : Type :=
| Return (a : A)
| Panic.
Arguments Return {A} a.
Arguments Panic {A}.

(** ** JSON Schema documents *)

Module jsonschema.

(** The members of [jsonschema.Schema] the generator reads or writes.
    [Properties] is an ordered map, [None] when the reflector left it nil. *)
Inductive Schema : Type := mkSchema {
  SchemaType : string;
  Description : string;
  Properties : option (list (string * Schema));
  Required : list string
}.

(** [prop.Description = d], on a schema reached through a pointer. *)
Definition setDescription (d : string) (s : Schema) : Schema :=
  mkSchema (SchemaType s) d (Properties s) (Required s).

(** [Properties.Get]. *)
Fixpoint PropertiesGet (ps : list (string * Schema)) (name : string)
  : option Schema :=
  match ps with
  | [] => None
  | (k, v) :: rest => if decide (k = name) then Some v else PropertiesGet rest name
  end.

(** In-place update of the schema stored under [name] (keys are unique in
    an ordered map). *)
Fixpoint PropertiesUpdate (ps : list (string * Schema)) (name : string)
  (f : Schema -> Schema) : list (string * Schema) :=
  match ps with
  | [] => []
  | (k, v) :: rest =>
      if decide (k = name) then (k, f v) :: rest
      else (k, v) :: PropertiesUpdate rest name f
  end.

End jsonschema.

(** ** Package protocol *)

Module protocol.

(** [RequestID]: the [value interface{}] is nil, a string or a number. *)
Inductive RequestID : Type :=
| IDNil
| IDString (s : string)
| IDNumber (literal : string).

(** [RequestID.UnmarshalJSON].  [json.Unmarshal(data, &str)] leaves [str]
    empty and returns no error when [data] is [null], so the first attempt
    already succeeds on [null].  Number literals are taken to fit a
    [float64]. *)
Definition RequestID_UnmarshalJSON (data : JSON) : error + RequestID :=
  match data with
  | JString s => inr (IDString s)
  | JNull => inr (IDString "")
  | JNumber n => inr (IDNumber n)
  | _ => inl (Errorf "invalid request ID: must be string, number, or null")
  end.


(** [NewRequestID] and [RequestID.Value]. *)
Definition NewRequestID (id : string) : RequestID := IDString id.

Record Request : Type := {
  Request_JSONRPC : string;
  Request_ID : RequestID;
  Request_Method : string;
  Request_Params : RawMessage
}.

Record Notification : Type := {
  Notification_JSONRPC : string;
  Notification_Method : string;
  Notification_Params : RawMessage
}.

Record ErrorObject : Type := {
  Code : Z;
  Message : string;
  Data : option string
}.

Record ImplementationInfo : Type := {
  Info_Name : string;
  Info_Version : string;
  Info_Title : string
}.

(** The capability structs hold pointers to (so far) empty structs: each
    is present or nil. *)
Record ClientCapabilities : Type := {
  Roots : bool;
  Sampling : bool;
  Elicitation : bool
}.

Record ServerCapabilities : Type := {
  Tools : option bool;                (* ListChanged *)
  Resources : option (bool * bool);   (* ListChanged, Subscribe *)
  Prompts : option bool;              (* ListChanged *)
  Logging : bool
}.

Record InitializeRequest : Type := {
  InitializeRequest_ProtocolVersion : string;
  ClientInfo : ImplementationInfo;
  InitializeRequest_Capabilities : ClientCapabilities
}.

Record InitializeResult : Type := {
  ProtocolVersion : string;
  ServerInfo : ImplementationInfo;
  Capabilities : ServerCapabilities;
  Instructions : string
}.

(** [Tool].  [InputSchema] is a [json.RawMessage] holding a schema
    document, [None] when empty. *)
Record Tool : Type := {
  Name : string;
  Title : string;
  Description : string;
  InputSchema : option jsonschema.Schema
}.

Record ListToolsResult : Type := {
  ListToolsResult_Tools : list Tool
}.

(** [CallToolRequest].  [Arguments] is a [map[string]interface{}]: [None]
    is the nil map; the entries are kept in the order [json.Marshal]
    writes them (sorted by key, keys unique), each value by its JSON. *)
Record CallToolRequest : Type := {
  CallToolRequest_Name : string;
  Arguments : option (list (string * JSON))
}.

Record ContentBlock : Type := {
  ContentBlock_Type : string;
  Text : string
}.

Record CallToolResult : Type := {
  Content : list ContentBlock;
  IsError : bool
}.

(** The values the server passes to [writeSuccessResponse] as [result],
    and so the documents [Response.Result] can hold. *)
Inductive ResultValue : Type :=
| OfInitializeResult (r : InitializeResult)
| OfListToolsResult (r : ListToolsResult)
| OfCallToolResult (r : CallToolResult).

(** [Response].  [Result] is a [json.RawMessage] tagged [omitempty] and
    [Error] a pointer tagged [omitempty]: the member is on the wire exactly
    when the field is [Some]. *)
Record Response : Type := {
  JSONRPC : string;
  ID : RequestID;
  Result : option ResultValue;
  Error_ : option ErrorObject
}.

End protocol.


(** ** What the server takes from outside the repository *)

(** - [Val], [zeroValue], [unmarshalValue]: the Go values a field of a
      parameter struct can hold, the zero value of a type, and
      [encoding/json] storing one JSON value into a field of that type
      (the old content is passed, since [null] leaves it as it is).
    - [foldName]: the case folding [encoding/json] matches object keys
      with when no field has the exact name.
    - [Reflect]: [(&jsonschema.Reflector{DoNotReference: true}).Reflect]
      of github.com/invopop/jsonschema on a value of the given struct
      type.
    - [formatFloat64]: a JSON number read into an [interface{}] becomes a
      [float64]; [None] when the literal is out of its range, else the
      literal [json.Marshal] writes for that [float64]. *)
Class Runtime : Type := {
  Val : Type;
  zeroValue : reflect.Type_ -> Val;
  unmarshalValue : reflect.Type_ -> JSON -> Val -> error + Val;
  foldName : string -> string;
  Reflect : reflect.Type_ -> jsonschema.Schema;
  formatFloat64 : string -> option string
}.

(** ** Package encoding/json, as far as the server calls it *)

Module json.

(** [strings.Split(s, ",")[0]]: the text before the first comma. *)
Fixpoint beforeComma (s : string) : string :=
  match s with
  | EmptyString => EmptyString
  | String c rest =>
      if decide (c = ","%char) then EmptyString else String c (beforeComma rest)
  end.

(** [json.MarshalIndent(schema, "", "  ")].  The document is identified
    with the schema it renders; marshalling a reflected schema has no
    failing member, so the error result is never produced. *)
Definition MarshalIndent (schema : jsonschema.Schema)
  : error + jsonschema.Schema := inr schema.

(** [json.Marshal(result)] for the three result types of the server, all
    made of strings, booleans, slices and valid raw messages: no error. *)
Definition Marshal (result : protocol.ResultValue)
  : error + protocol.ResultValue := inr result.

(** *** Decoding an object into a struct *)

Section Decoder.
Context {R : Runtime}.

(** A struct field as the decoder sees it: its JSON name and how a value
    is stored into it. *)
Record field (S : Type) : Type := mkfield {
  fname : string;
  store : JSON -> S -> error + S
}.
Arguments mkfield {S} _ _.
Arguments fname {S} _.
Arguments store {S} _ _ _.

(** The field an object key names: an exact match first, a match up to
    case folding otherwise. *)
Definition findField {S : Type} (fields : list (field S)) (key : string)
  : option (field S) :=
  match List.find (fun f => bool_decide (fname f = key)) fields with
  | Some f => Some f
  | None =>
      List.find (fun f => bool_decide (foldName (fname f) = foldName key))
        fields
  end.

(** The members of an object are stored one after the other; a key that
    names no field is skipped; a field no key names keeps its value. *)
Fixpoint decodeMembers {S : Type} (fields : list (field S))
  (members : list (string * JSON)) (s : S) : error + S :=
  match members with
  | [] => inr s
  | (key, v) :: rest =>
      match findField fields key with
      | None => decodeMembers fields rest s
      | Some f =>
          match store f v s with
          | inl err => inl err
          | inr s' => decodeMembers fields rest s'
          end
      end
  end.

(** Storing a JSON value into a struct: [null] changes nothing, an object
    is decoded member by member, anything else does not fit. *)
Definition storeStruct {S : Type} (fields : list (field S)) (v : JSON) (s : S)
  : error + S :=
  match v with
  | JNull => inr s
  | JObject members => decodeMembers fields members s
  | _ => inl (UnmarshalTypeError "")
  end.

(** [json.Unmarshal(data, &s)] for a struct [s]; empty input is an error. *)
Definition Unmarshal {S : Type} (fields : list (field S)) (data : RawMessage)
  (s : S) : error + S :=
  match data with
  | None => inl (SyntaxError "unexpected end of JSON input")
  | Some v => storeStruct fields v s
  end.

(** Storing into a [string] field. *)
Definition storeString (name : string) (v : JSON) (old : string)
  : error + string :=
  match v with
  | JString s => inr s
  | JNull => inr old
  | _ => inl (UnmarshalTypeError name)
  end.

(** Storing into a [*struct{}] field: [true] for a non-nil pointer. *)
Definition storeEmptyStructPtr (name : string) (v : JSON) (old : bool)
  : error + bool :=
  match v with
  | JNull => inr false
  | JObject _ => inr true
  | _ => inl (UnmarshalTypeError name)
  end.

(** Setting a key of a [map[string]interface{}] kept in key order. *)
Fixpoint mapSet (key : string) (v : JSON) (entries : list (string * JSON))
  : list (string * JSON) :=
  match entries with
  | [] => [(key, v)]
  | (k, w) :: rest =>
      if decide (k = key) then (key, v) :: rest
      else if String.ltb key k then (key, v) :: (k, w) :: rest
      else (k, w) :: mapSet key v rest
  end.

(** Storing the members of an object into a map, each value first read
    by [any]; the first value that cannot be read makes the error. *)
Fixpoint storeMembers (any : JSON -> error + JSON)
  (members : list (string * JSON)) (m : list (string * JSON))
  : error + list (string * JSON) :=
  match members with
  | [] => inr m
  | (key, v) :: rest =>
      match any v with
      | inl err => inl err
      | inr v' => storeMembers any rest (mapSet key v' m)
      end
  end.

(** A JSON value read into an [interface{}] and written again by
    [json.Marshal]: a number goes through [float64] and is refused when
    out of range; an object becomes a [map[string]interface{}], written
    with sorted keys, a repeated key keeping the last value. *)
Fixpoint storeAny (v : JSON) : error + JSON :=
  match v with
  | JNumber literal =>
      match formatFloat64 literal with
      | Some literal' => inr (JNumber literal')
      | None => inl (UnmarshalTypeError "number")
      end
  | JArray elems =>
      match
        (fix storeElems (l : list JSON) : error + list JSON :=
           match l with
           | [] => inr []
           | x :: rest =>
               match storeAny x with
               | inl err => inl err
               | inr x' =>
                   match storeElems rest with
                   | inl err => inl err
                   | inr rest' => inr (x' :: rest')
                   end
               end
           end) elems
      with
      | inl err => inl err
      | inr elems' => inr (JArray elems')
      end
  | JObject members =>
      match
        (fix storeObject (l : list (string * JSON))
           (m : list (string * JSON)) : error + list (string * JSON) :=
           match l with
           | [] => inr m
           | (key, x) :: rest =>
               match storeAny x with
               | inl err => inl err
               | inr x' => storeObject rest (mapSet key x' m)
               end
           end) members []
      with
      | inl err => inl err
      | inr m => inr (JObject m)
      end
  | _ => inr v
  end.

(** Storing into a [map[string]interface{}] field: [null] makes the map
    nil, an object sets its members, every value read into an
    [interface{}]. *)
Definition storeMap (name : string) (v : JSON)
  (old : option (list (string * JSON))) : error + option (list (string * JSON)) :=
  match v with
  | JNull => inr None
  | JObject members =>
      match storeMembers storeAny members (default [] old) with
      | inl err => inl err
      | inr m => inr (Some m)
      end
  | _ => inl (UnmarshalTypeError name)
  end.

(** [json.Marshal] of a [map[string]interface{}]. *)
Definition MarshalMap (m : option (list (string * JSON))) : JSON :=
  match m with
  | None => JNull
  | Some entries => JObject entries
  end.

(** Lifting a store on a member to a store on the struct. *)
Definition onField {S A : Type} (name : string) (get : S -> A)
  (set : S -> A -> S) (st : string -> JSON -> A -> error + A) : field S :=
  mkfield name (fun v s =>
    match st name v (get s) with
    | inl err => inl err
    | inr a => inr (set s a)
    end).

(** **** The structs of package protocol the server decodes *)

Import protocol.

Definition RequestFields : list (field Request) :=
  [ onField "jsonrpc" Request_JSONRPC
      (fun r a => {| Request_JSONRPC := a; Request_ID := Request_ID r;
                     Request_Method := Request_Method r;
                     Request_Params := Request_Params r |}) storeString;
    onField "id" Request_ID
      (fun r a => {| Request_JSONRPC := Request_JSONRPC r; Request_ID := a;
                     Request_Method := Request_Method r;
                     Request_Params := Request_Params r |})
      (fun _ v _ => RequestID_UnmarshalJSON v);
    onField "method" Request_Method
      (fun r a => {| Request_JSONRPC := Request_JSONRPC r;
                     Request_ID := Request_ID r; Request_Method := a;
                     Request_Params := Request_Params r |}) storeString;
    onField "params" Request_Params
      (fun r a => {| Request_JSONRPC := Request_JSONRPC r;
                     Request_ID := Request_ID r;
                     Request_Method := Request_Method r;
                     Request_Params := a |})
      (fun _ v _ => inr (Some v)) ].

Definition zeroRequest : Request :=
  {| Request_JSONRPC := ""; Request_ID := IDNil; Request_Method := "";
     Request_Params := None |}.

Definition NotificationFields : list (field Notification) :=
  [ onField "jsonrpc" Notification_JSONRPC
      (fun n a => {| Notification_JSONRPC := a;
                     Notification_Method := Notification_Method n;
                     Notification_Params := Notification_Params n |})
      storeString;
    onField "method" Notification_Method
      (fun n a => {| Notification_JSONRPC := Notification_JSONRPC n;
                     Notification_Method := a;
                     Notification_Params := Notification_Params n |})
      storeString;
    onField "params" Notification_Params
      (fun n a => {| Notification_JSONRPC := Notification_JSONRPC n;
                     Notification_Method := Notification_Method n;
                     Notification_Params := a |})
      (fun _ v _ => inr (Some v)) ].

Definition zeroNotification : Notification :=
  {| Notification_JSONRPC := ""; Notification_Method := "";
     Notification_Params := None |}.

Definition ImplementationInfoFields : list (field ImplementationInfo) :=
  [ onField "name" Info_Name
      (fun i a => {| Info_Name := a; Info_Version := Info_Version i;
                     Info_Title := Info_Title i |}) storeString;
    onField "version" Info_Version
      (fun i a => {| Info_Name := Info_Name i; Info_Version := a;
                     Info_Title := Info_Title i |}) storeString;
    onField "title" Info_Title
      (fun i a => {| Info_Name := Info_Name i; Info_Version := Info_Version i;
                     Info_Title := a |}) storeString ].

Definition ClientCapabilitiesFields : list (field ClientCapabilities) :=
  [ onField "roots" Roots
      (fun c a => {| Roots := a; Sampling := Sampling c;
                     Elicitation := Elicitation c |}) storeEmptyStructPtr;
    onField "sampling" Sampling
      (fun c a => {| Roots := Roots c; Sampling := a;
                     Elicitation := Elicitation c |}) storeEmptyStructPtr;
    onField "elicitation" Elicitation
      (fun c a => {| Roots := Roots c; Sampling := Sampling c;
                     Elicitation := a |}) storeEmptyStructPtr ].

Definition InitializeRequestFields : list (field InitializeRequest) :=
  [ onField "protocolVersion" InitializeRequest_ProtocolVersion
      (fun r a => {| InitializeRequest_ProtocolVersion := a;
                     ClientInfo := ClientInfo r;
                     InitializeRequest_Capabilities :=
                       InitializeRequest_Capabilities r |}) storeString;
    onField "clientInfo" ClientInfo
      (fun r a => {| InitializeRequest_ProtocolVersion :=
                       InitializeRequest_ProtocolVersion r;
                     ClientInfo := a;
                     InitializeRequest_Capabilities :=
                       InitializeRequest_Capabilities r |})
      (fun _ => storeStruct ImplementationInfoFields);
    onField "capabilities" InitializeRequest_Capabilities
      (fun r a => {| InitializeRequest_ProtocolVersion :=
                       InitializeRequest_ProtocolVersion r;
                     ClientInfo := ClientInfo r;
                     InitializeRequest_Capabilities := a |})
      (fun _ => storeStruct ClientCapabilitiesFields) ].

Definition zeroInitializeRequest : InitializeRequest :=
  {| InitializeRequest_ProtocolVersion := "";
     ClientInfo := {| Info_Name := ""; Info_Version := ""; Info_Title := "" |};
     InitializeRequest_Capabilities :=
       {| Roots := false; Sampling := false; Elicitation := false |} |}.

Definition CallToolRequestFields : list (field CallToolRequest) :=
  [ onField "name" CallToolRequest_Name
      (fun c a => {| CallToolRequest_Name := a; Arguments := Arguments c |})
      storeString;
    onField "arguments" Arguments
      (fun c a => {| CallToolRequest_Name := CallToolRequest_Name c;
                     Arguments := a |}) storeMap ].

Definition zeroCallToolRequest : CallToolRequest :=
  {| CallToolRequest_Name := ""; Arguments := None |}.

(** **** A parameter struct, from its reflected type *)

(** The JSON name of a field of a parameter struct: the name part of its
    [json] tag, or the Go name; [None] for a field the decoder skips
    (unexported, or tagged ["-"]). *)
Definition jsonName (f : reflect.StructField reflect.Type_) : option string :=
  let tag := reflect.Get (reflect.Tag f) "json" in
  if negb (reflect.Exported f) then None
  else if decide (tag = "-") then None
  else if decide (beforeComma tag = "") then Some (reflect.Name f)
  else Some (beforeComma tag).

(** The structs the field-by-field decoding below describes: no field is
    embedded and no two fields have the same JSON name.  ([encoding/json]
    flattens the fields of embedded structs into the struct and drops
    fields whose names clash; such structs, like types with an
    [UnmarshalJSON] of their own, are left to [unmarshalValue].) *)
Definition plainStruct (fs : list (reflect.StructField reflect.Type_)) : bool :=
  forallb (fun f => negb (reflect.Anonymous f)) fs
  && bool_decide (NoDup (omap jsonName fs)).

(** The number of the field of a plain parameter struct an object key
    names: an exact match first, a match up to case folding otherwise. *)
Definition fieldIndex (fs : list (reflect.StructField reflect.Type_))
  (key : string) : option nat :=
  match list_find (fun n => n = Some key) (jsonName <$> fs) with
  | Some (i, _) => Some i
  | None =>
      match list_find (fun n => foldName <$> n = Some (foldName key))
              (jsonName <$> fs) with
      | Some (i, _) => Some i
      | None => None
      end
  end.

(** [decodeMembers] for a struct value held as the list of its field
    values: the member named [key] is stored into position
    [fieldIndex fs key]. *)
Fixpoint decodeFields (fs : list (reflect.StructField reflect.Type_))
  (members : list (string * JSON)) (s : list Val) : error + list Val :=
  match members with
  | [] => inr s
  | (key, v) :: rest =>
      match fieldIndex fs key with
      | None => decodeFields fs rest s
      | Some i =>
          match fs !! i, s !! i with
          | Some f, Some old =>
              match unmarshalValue (reflect.FieldType f) v old with
              | inl err => inl err
              | inr new => decodeFields fs rest (<[i := new]> s)
              end
          | _, _ => decodeFields fs rest s
          end
      end
  end.

(** [storeStruct] for a parameter struct. *)
Definition storeFields (fs : list (reflect.StructField reflect.Type_))
  (v : JSON) (s : list Val) : error + list Val :=
  match v with
  | JNull => inr s
  | JObject members => decodeFields fs members s
  | _ => inl (UnmarshalTypeError "")
  end.

(** [reflect.New(t)] for a struct type [t]: every field at its zero. *)
Definition zeroStruct (fs : list (reflect.StructField reflect.Type_))
  : list Val :=
  (fun f => zeroValue (reflect.FieldType f)) <$> fs.

End Decoder.

End json.

(** ** Package mcp *)

Module mcp.
Import reflect.

Section Server.
Context {R : Runtime}.

(** *** Schema generator (schema_generator.go) *)

(** The raw message [{"type": "object", "properties": {}}]. *)
Definition emptyObjectSchema : jsonschema.Schema :=
  jsonschema.mkSchema "object" "" (Some []) [].

(** Step 2 of [generateSchemaForType], one field of the loop. *)
Definition addDescription (properties : list (string * jsonschema.Schema))
  (field : StructField Type_) : list (string * jsonschema.Schema) :=
  let jsonTag := Get (Tag field) "json" in
  if decide (jsonTag = "" ∨ jsonTag = "-") then properties
  else
    let propertyName := json.beforeComma jsonTag in
    match jsonschema.PropertiesGet properties propertyName with
    | Some _ =>
        let descTag := Get (Tag field) "description" in
        if decide (descTag ≠ "")
        then jsonschema.PropertiesUpdate properties propertyName
               (jsonschema.setDescription descTag)
        else properties
    | None => properties
    end.

(** Step 3 of [generateSchemaForType], one field of the loop. *)
Definition addRequired (required : list string) (field : StructField Type_)
  : list string :=
  let jsonTag := Get (Tag field) "json" in
  if decide (jsonTag ≠ "" ∧ jsonTag ≠ "-")
  then required ++ [json.beforeComma jsonTag]
  else required.

Definition generateSchemaForType (t : Type_)
  : error + option jsonschema.Schema :=
  let t := match t with PtrTo e _ => e | _ => t end in
  if decide (Kind_of t ≠ Struct) then inr (Some emptyObjectSchema)
  else
    let schema := Reflect t in
    match jsonschema.Properties schema with
    | Some properties =>
        let properties := fold_left addDescription (Fields t) properties in
        let required :=
          fold_left addRequired (Fields t) (jsonschema.Required schema) in
        let schema :=
          jsonschema.mkSchema (jsonschema.SchemaType schema)
            (jsonschema.Description schema) (Some properties) required in
        match json.MarshalIndent schema with
        | inl err => inl err
        | inr schemaBytes => inr (Some schemaBytes)
        end
    | None =>
        match json.MarshalIndent schema with
        | inl err => inl err
        | inr schemaBytes => inr (Some schemaBytes)
        end
    end.

(** *** Server state (server.go) *)

(** The arguments of [handlerValue.Call]: the background context and the
    pointer to the decoded parameter struct (its field values, in field
    order). *)
Inductive CallArg : Type :=
| ArgContext
| ArgInput (fields : list Val).

(** A [reflect.Value] returned by a handler: a nil value of a nillable
    kind, a non-nil [error] with its message, or a value of a kind that
    cannot be nil, with its [%v] rendering. *)
Inductive Value : Type :=
| NilValue
| ErrorValue (msg : string)
| PlainValue (rendered : string).

(** A non-nil [interface{}] given as handler: its dynamic type, and what
    [reflect.Value.Call] on it does with the given arguments: it returns
    the results of the function, or panics (the function value is nil, an
    argument is not assignable to its parameter, as
    [context.Background()] to a parameter of a concrete context type, or
    the body panics). *)
Record HandlerValue : Type := {
  TypeOf : Type_;
  Call : list CallArg -> Outcome (list Value)
}.

(** [ToolRegistration]; a nil [Handler] is [None]. *)
Record ToolRegistration : Type := {
  Definition_ : protocol.Tool;
  Handler : option HandlerValue
}.

Record internalRegisteredTool : Type := {
  tool_Definition : protocol.Tool;
  handlerValue : HandlerValue;
  inputType : Type_;
  takesContext : bool
}.

Record SessionState : Type := {
  ClientCapabilities : protocol.ClientCapabilities
}.

(** [Server] without the mux and the two locks (calls are sequential). *)
Record Server : Type := {
  info : protocol.ImplementationInfo;
  capabilities : protocol.ServerCapabilities;
  sessions : gmap string SessionState;
  tools : gmap string internalRegisteredTool
}.

Definition NewServer (name version : string)
  (capabilities : protocol.ServerCapabilities) : Server :=
  {| info := {| protocol.Info_Name := name; protocol.Info_Version := version;
                protocol.Info_Title := "" |};
     capabilities := capabilities;
     sessions := ∅;
     tools := ∅ |}.

Definition setTools (s : Server) (t : gmap string internalRegisteredTool)
  : Server :=
  {| info := info s; capabilities := capabilities s;
     sessions := sessions s; tools := t |}.

Definition setSessions (s : Server) (m : gmap string SessionState) : Server :=
  {| info := info s; capabilities := capabilities s;
     sessions := m; tools := tools s |}.

(** *** Registration *)

(** The errors [registerSingleTool] builds with [fmt.Errorf]. *)
Inductive RegistrationError : Type :=
| ErrNameMissing                      (* tool definition must include a name *)
| ErrNotFunction                      (* handler must be a function *)
| ErrArgCount (expected got : nat)    (* handler has incorrect number of arguments *)
| ErrParamType (t : Type_)            (* parameter type must be a pointer to a struct *)
| ErrSchema (t : Type_) (cause : error) (* could not generate schema *)
| ErrAlreadyRegistered (name : string). (* tool with name already registered *)

Definition setInputSchema (d : protocol.Tool) (sch : option jsonschema.Schema)
  : protocol.Tool :=
  {| protocol.Name := protocol.Name d; protocol.Title := protocol.Title d;
     protocol.Description := protocol.Description d;
     protocol.InputSchema := sch |}.

(** [registerSingleTool]: the server afterwards and the error returned
    ([None] for nil).  [reflect.ValueOf(nil).Type()] panics. *)
Definition registerSingleTool (s : Server) (reg : ToolRegistration)
  : Outcome (Server * option RegistrationError) :=
  let toolDef := Definition_ reg in
  if decide (protocol.Name toolDef = "") then Return (s, Some ErrNameMissing)
  else
  match Handler reg with
  | None => Panic
  | Some handlerVal =>
    let handlerType := TypeOf handlerVal in
    if decide (Kind_of handlerType ≠ Func) then Return (s, Some ErrNotFunction)
    else
    let numIn := NumIn handlerType in
    let takesContext :=
      match Ins handlerType !! 0%nat with
      | Some in0 => Implements_Context in0
      | None => false
      end in
    let expectedArgCount := if takesContext then 2%nat else 1%nat in
    if decide (numIn ≠ expectedArgCount)
    then Return (s, Some (ErrArgCount expectedArgCount numIn))
    else
    match Ins handlerType !! (numIn - 1)%nat with
    | None => Panic
    | Some inputType =>
      if decide (Kind_of inputType ≠ Pointer
                 ∨ (Kind_of <$> Elem inputType) ≠ Some Struct)
      then Return (s, Some (ErrParamType inputType))
      else
      match generateSchemaForType inputType with
      | inl err => Return (s, Some (ErrSchema inputType err))
      | inr inputSchema =>
        let toolDef := setInputSchema toolDef inputSchema in
        match tools s !! protocol.Name toolDef with
        | Some _ =>
            Return (s, Some (ErrAlreadyRegistered (protocol.Name toolDef)))
        | None =>
            Return (setTools s
                      (<[protocol.Name toolDef :=
                           {| tool_Definition := toolDef;
                              handlerValue := handlerVal;
                              inputType := inputType;
                              takesContext := takesContext |}]> (tools s)),
                    None)
        end
      end
    end
  end.

(** The error [RegisterTools] returns: failed to register tool
    [name]: [cause]. *)
Inductive BatchError : Type :=
| ErrFailedToRegister (name : string) (cause : RegistrationError).

Fixpoint RegisterTools (s : Server) (registrations : list ToolRegistration)
  : Outcome (Server * option BatchError) :=
  match registrations with
  | [] => Return (s, None)
  | reg :: rest =>
      match registerSingleTool s reg with
      | Panic => Panic
      | Return (s', Some err) =>
          Return (s', Some (ErrFailedToRegister
                              (protocol.Name (Definition_ reg)) err))
      | Return (s', None) => RegisterTools s' rest
      end
  end.

(** *** HTTP plumbing (net/http) *)

(** What a handler wrote after the headers. *)
Inductive Written : Type :=
| NoBody
| PlainText (text : string)
| Envelope (resp : protocol.Response).

(** An [http.ResponseWriter], by what was done to it. *)
Record ResponseWriter : Type := {
  Header : gmap string string;
  StatusCode : option Z;
  Body : Written
}.

Definition newResponseWriter : ResponseWriter :=
  {| Header := ∅; StatusCode := None; Body := NoBody |}.

Definition HeaderSet (w : ResponseWriter) (key value : string)
  : ResponseWriter :=
  {| Header := <[key := value]> (Header w); StatusCode := StatusCode w;
     Body := Body w |}.

(** [w.WriteHeader]: only the first call counts. *)
Definition WriteHeader (w : ResponseWriter) (code : Z) : ResponseWriter :=
  {| Header := Header w;
     StatusCode := match StatusCode w with Some c => Some c | None => Some code end;
     Body := Body w |}.

Definition writeBody (w : ResponseWriter) (b : Written) : ResponseWriter :=
  {| Header := Header w; StatusCode := StatusCode w; Body := b |}.

(** [http.Error]. *)
Definition http_Error (w : ResponseWriter) (msg : string) (code : Z)
  : ResponseWriter :=
  let w := HeaderSet w "Content-Type" "text/plain; charset=utf-8" in
  let w := HeaderSet w "X-Content-Type-Options" "nosniff" in
  let w := WriteHeader w code in
  writeBody w (PlainText msg).

(** The request body after [io.ReadAll]: a read error, bytes that are not
    a JSON text (with the scanner's error), or a JSON text. *)
Inductive BodyBytes : Type :=
| ReadError (err : error)
| NotJSON (err : error)
| JSONText (v : JSON).

Record http_Request : Type := {
  Method : string;
  http_Body : BodyBytes
}.

(** *** Response writers (rpc.go) *)

Definition writeErrorResponse (w : ResponseWriter) (id : protocol.RequestID)
  (code : Z) (message : string) (data : option error) : ResponseWriter :=
  let dataStr := match data with Some e => Error e | None => "" end in
  let errorObj :=
    {| protocol.Code := code; protocol.Message := message;
       protocol.Data := if decide (dataStr ≠ "") then Some dataStr else None |} in
  let resp :=
    {| protocol.JSONRPC := "2.0"; protocol.ID := id;
       protocol.Result := None; protocol.Error_ := Some errorObj |} in
  let w := HeaderSet w "Content-Type" "application/json" in
  let w :=
    if decide (code = (-32700)%Z ∨ code = (-32600)%Z ∨ code = (-32602)%Z)
    then WriteHeader w 400%Z
    else if decide (code = (-32601)%Z) then WriteHeader w 404%Z
    else WriteHeader w 500%Z in
  writeBody w (Envelope resp).

Definition writeSuccessResponse (w : ResponseWriter) (id : protocol.RequestID)
  (result : protocol.ResultValue) : ResponseWriter :=
  match json.Marshal result with
  | inl err =>
      writeErrorResponse w id (-32603)%Z
        "Internal server error: failed to marshal result" (Some err)
  | inr resultBytes =>
      let resp :=
        {| protocol.JSONRPC := "2.0"; protocol.ID := id;
           protocol.Result := Some resultBytes; protocol.Error_ := None |} in
      let w := HeaderSet w "Content-Type" "application/json" in
      let w := WriteHeader w 200%Z in
      writeBody w (Envelope resp)
  end.

(** *** Method handlers *)

(** [fmt.Sprintf("session-%d", n)]. *)
Definition sessionIDOf (unixNano : Z) : string :=
  "session-" ++ pretty unixNano.

(** [handleInitialize]; [now] is what [time.Now().UnixNano()] returns. *)
Definition handleInitialize (s : Server) (now : Z) (w : ResponseWriter)
  (req : protocol.Request) : Server * ResponseWriter :=
  match json.Unmarshal json.InitializeRequestFields (protocol.Request_Params req)
          json.zeroInitializeRequest with
  | inl err =>
      (s, writeErrorResponse w (protocol.Request_ID req) (-32602)%Z
            "Invalid params for initialize" (Some err))
  | inr initParams =>
      let negotiatedVersion := protocol.InitializeRequest_ProtocolVersion initParams in
      let sessionID := sessionIDOf now in
      let s :=
        setSessions s
          (<[sessionID :=
               {| ClientCapabilities :=
                    protocol.InitializeRequest_Capabilities initParams |}]>
             (sessions s)) in
      let result :=
        {| protocol.ProtocolVersion := negotiatedVersion;
           protocol.ServerInfo := info s;
           protocol.Capabilities := capabilities s;
           protocol.Instructions := "" |} in
      let w := HeaderSet w "Mcp-Session-Id" sessionID in
      (s, writeSuccessResponse w (protocol.Request_ID req)
            (protocol.OfInitializeResult result))
  end.

(** [handleListTools].  Go ranges over the map in no fixed order; the
    list is given in the order of [map_to_list]. *)
Definition handleListTools (s : Server) (w : ResponseWriter)
  (req : protocol.Request) : ResponseWriter :=
  let toolList := (fun kv => tool_Definition kv.2) <$> map_to_list (tools s) in
  writeSuccessResponse w (protocol.Request_ID req)
    (protocol.OfListToolsResult {| protocol.ListToolsResult_Tools := toolList |}).

(** [json.Unmarshal(argsBytes, inputValue.Interface())] where
    [inputValue] is [reflect.New] of the element type [t]: a plain struct
    is decoded field by field into its zero value and held as the list of
    its field values; any other type is decoded by [unmarshalValue] and
    held as one value. *)
Definition unmarshalInput (t : Type_) (argsBytes : JSON) : error + list Val :=
  match t with
  | StructOf fs _ =>
      if json.plainStruct fs
      then json.storeFields fs argsBytes (json.zeroStruct fs)
      else
        match unmarshalValue t argsBytes (zeroValue t) with
        | inl err => inl err
        | inr v => inr [v]
        end
  | _ =>
      match unmarshalValue t argsBytes (zeroValue t) with
      | inl err => inl err
      | inr v => inr [v]
      end
  end.

(** [fmt.Sprintf("%v", v.Interface())]. *)
Definition Sprintf_v (v : Value) : string :=
  match v with
  | NilValue => "<nil>"
  | ErrorValue msg => msg
  | PlainValue rendered => rendered
  end.

Definition textResult (text : string) (isError : bool)
  : protocol.ResultValue :=
  protocol.OfCallToolResult
    {| protocol.Content :=
         [ {| protocol.ContentBlock_Type := "text"; protocol.Text := text |} ];
       protocol.IsError := isError |}.

(** One [handlerValue.Call], returning or not: the tool and the arguments
    passed. *)
Record Invocation : Type := {
  invokedTool : string;
  invokedArgs : list CallArg
}.

(** [handleCallTool]: the calls of [handlerValue.Call] made, and the
    writer afterwards.  It panics where the Go code does: [Elem] of a type
    that is no pointer, inside [handlerValue.Call],
    [results[len(results)-1]] of no results, [IsNil] of a value that
    cannot be nil. *)
Definition handleCallTool (s : Server) (w : ResponseWriter)
  (req : protocol.Request) : list Invocation * Outcome ResponseWriter :=
  match json.Unmarshal json.CallToolRequestFields (protocol.Request_Params req)
          json.zeroCallToolRequest with
  | inl err =>
      ([], Return (writeErrorResponse w (protocol.Request_ID req) (-32602)%Z
                     "Invalid params for tools/call" (Some err)))
  | inr callParams =>
    let name := protocol.CallToolRequest_Name callParams in
    match tools s !! name with
    | None =>
        ([], Return (writeErrorResponse w (protocol.Request_ID req) (-32602)%Z
                       ("Tool not found: " ++ name) None))
    | Some tool =>
      match Elem (inputType tool) with
      | None => ([], Panic)
      | Some elemType =>
        let argsBytes := json.MarshalMap (protocol.Arguments callParams) in
        match unmarshalInput elemType argsBytes with
        | inl err =>
            ([], Return (writeErrorResponse w (protocol.Request_ID req)
                           (-32602)%Z ("Invalid arguments for tool " ++ name)
                           (Some err)))
        | inr inputValue =>
          let callArgs :=
            ((if takesContext tool then [ArgContext] else [])
             ++ [ArgInput inputValue])%list in
          ([ {| invokedTool := name; invokedArgs := callArgs |} ],
           match Call (handlerValue tool) callArgs with
           | Panic => Panic
           | Return results =>
             match last results with
             | None => Panic
             | Some (PlainValue _) => Panic
             | Some (ErrorValue msg) =>
                 Return (writeSuccessResponse w (protocol.Request_ID req)
                           (textResult msg true))
             | Some NilValue =>
                 let resultText :=
                   match results with
                   | r0 :: _ :: _ => Sprintf_v r0
                   | _ => "Operation completed successfully."
                   end in
                 Return (writeSuccessResponse w (protocol.Request_ID req)
                           (textResult resultText false))
             end
           end)
        end
      end
    end
  end.

(** *** Routing *)

(** The routing functions return the handler calls made and, unless the
    request panicked, the server and the writer afterwards. *)
Definition handleRequest (s : Server) (now : Z) (w : ResponseWriter)
  (req : protocol.Request)
  : list Invocation * Outcome (Server * ResponseWriter) :=
  if decide (protocol.Request_Method req = "initialize")
  then ([], Return (handleInitialize s now w req))
  else if decide (protocol.Request_Method req = "tools/list")
  then ([], Return (s, handleListTools s w req))
  else if decide (protocol.Request_Method req = "tools/call")
  then match handleCallTool s w req with
       | (calls, Panic) => (calls, Panic)
       | (calls, Return w') => (calls, Return (s, w'))
       end
  else ([], Return (s, writeErrorResponse w (protocol.Request_ID req)
                         (-32601)%Z "Method not found" None)).

Definition handleNotification (w : ResponseWriter)
  (n : protocol.Notification) : ResponseWriter :=
  if decide (protocol.Notification_Method n = "notifications/initialized")
  then WriteHeader w 202%Z
  else WriteHeader w 202%Z.

(** [json.Unmarshal(body, &rawMessage)] for a
    [map[string]json.RawMessage]: the keys of the object ([null] gives the
    nil map). *)
Definition unmarshalRawMessageMap (v : JSON) : error + list (string * JSON) :=
  match v with
  | JObject members => inr members
  | JNull => inr []
  | _ => inl (UnmarshalTypeError "")
  end.

(** [_, ok := rawMessage[key]]. *)
Definition hasKey (key : string) (members : list (string * JSON)) : bool :=
  existsb (fun kv => bool_decide (kv.1 = key)) members.

Definition handleMCPRequest (s : Server) (now : Z) (w : ResponseWriter)
  (r : http_Request) : list Invocation * Outcome (Server * ResponseWriter) :=
  if decide (Method r = "GET") then ([], Return (s, WriteHeader w 200%Z))
  else if decide (Method r ≠ "POST")
  then ([], Return (s, http_Error w "Method not allowed" 405%Z))
  else
  match http_Body r with
  | ReadError _ =>
      ([], Return (s, http_Error w "Failed to read request body" 500%Z))
  | NotJSON err =>
      ([], Return (s, writeErrorResponse w protocol.IDNil (-32700)%Z
                        "Parse error: Invalid JSON" (Some err)))
  | JSONText body =>
    match unmarshalRawMessageMap body with
    | inl err =>
        ([], Return (s, writeErrorResponse w protocol.IDNil (-32700)%Z
                          "Parse error: Invalid JSON" (Some err)))
    | inr rawMessage =>
      if hasKey "id" rawMessage then
        match json.Unmarshal json.RequestFields (Some body) json.zeroRequest with
        | inl err =>
            ([], Return (s, writeErrorResponse w protocol.IDNil (-32700)%Z
                              "Parse error: Invalid Request structure"
                              (Some err)))
        | inr req => handleRequest s now w req
        end
      else
        match json.Unmarshal json.NotificationFields (Some body)
                json.zeroNotification with
        | inl _ => ([], Return (s, WriteHeader w 400%Z))
        | inr notif => ([], Return (s, handleNotification w notif))
        end
    end
  end.

End Server.
End mcp.

(** ** The properties under study, as predicates on the model *)

Section Statements.
Context {R : Runtime}.
Import reflect mcp.

(** *** Uniqueness of names *)


(** *** Handler shapes *)






(** *** Response envelopes *)

(** A response carries exactly one of [result] and [error]. *)
Definition exactlyOne (resp : protocol.Response) : Prop :=
  (is_Some (protocol.Result resp) ∧ protocol.Error_ resp = None)
  ∨ (protocol.Result resp = None ∧ is_Some (protocol.Error_ resp)).

Definition envelopeOK (b : Written) : Prop :=
  match b with
  | Envelope resp => exactlyOne resp
  | _ => True
  end.

Definition outcomeOK (o : Outcome (Server * ResponseWriter)) : Prop :=
  match o with
  | Return (_, w) => envelopeOK (Body w)
  | Panic => True
  end.

(** The JSON-RPC error envelope for [id] with [code]. *)
Definition isErrorEnvelope (b : Written) (id : protocol.RequestID) (code : Z)
  : Prop :=
  ∃ errorObj,
    b = Envelope {| protocol.JSONRPC := "2.0"; protocol.ID := id;
                    protocol.Result := None;
                    protocol.Error_ := Some errorObj |}
    ∧ protocol.Code errorObj = code.

(** The JSON-RPC success envelope for [id] holding a tool result. *)
Definition isToolResultEnvelope (b : Written) (id : protocol.RequestID)
  (text : string) (isError : bool) : Prop :=
  b = Envelope
        {| protocol.JSONRPC := "2.0"; protocol.ID := id;
           protocol.Result :=
             Some (protocol.OfCallToolResult
                     {| protocol.Content :=
                          [ {| protocol.ContentBlock_Type := "text";
                               protocol.Text := text |} ];
                        protocol.IsError := isError |});
           protocol.Error_ := None |}.

(** *** Session identifiers *)

(** The session identifier a response announces. *)
Definition sessionHeader (w : ResponseWriter) : option string :=
  Header w !! "Mcp-Session-Id".

(** Two [initialize] calls in a row, at the clock readings [now1] and
    [now2]: the identifiers announced differ and both are stored. *)
Definition distinct_sessions (s : Server) (now1 now2 : Z)
  (req1 req2 : protocol.Request) : Prop :=
  let '(s1, w1) := handleInitialize s now1 newResponseWriter req1 in
  let '(s2, w2) := handleInitialize s1 now2 newResponseWriter req2 in
  ∃ id1 id2, sessionHeader w1 = Some id1 ∧ sessionHeader w2 = Some id2
    ∧ id1 ≠ id2
    ∧ is_Some (sessions s2 !! id1) ∧ is_Some (sessions s2 !! id2).

(** The [initialize] call succeeds: its parameters decode. *)
Definition initializeSucceeds (req : protocol.Request) : Prop :=
  ∃ initParams,
    json.Unmarshal json.InitializeRequestFields (protocol.Request_Params req)
      json.zeroInitializeRequest = inr initParams.

(** The uniqueness of session identifiers read literally. *)
Definition distinct_sessions_as_stated (s : Server) (now1 now2 : Z)
  (req1 req2 : protocol.Request) : Prop :=
  initializeSucceeds req1 → initializeSucceeds req2 →
  distinct_sessions s now1 now2 req1 req2.

(** *** Argument decoding *)




(** *** Routing *)


End Statements.

(** ** A runtime and the calculator server of the examples *)

Module example.

Definition lowerChar (c : ascii) : ascii :=
  let n := Ascii.nat_of_ascii c in
  if (65 <=? n)%nat && (n <=? 90)%nat then Ascii.ascii_of_nat (n + 32) else c.

Fixpoint lower (s : string) : string :=
  match s with
  | EmptyString => EmptyString
  | String c rest => String (lowerChar c) (lower rest)
  end.

Fixpoint splitComma (s : string) : list string :=
  match s with
  | EmptyString => [EmptyString]
  | String c rest =>
      if decide (c = ","%char) then EmptyString :: splitComma rest
      else match splitComma rest with
           | [] => [String c EmptyString]
           | p :: ps => String c p :: ps
           end
  end.

(** The value of a string of decimal digits. *)
Fixpoint digitsValue (s : string) (acc : nat) : nat :=
  match s with
  | EmptyString => acc
  | String c rest =>
      digitsValue rest (10 * acc + (Ascii.nat_of_ascii c - 48))
  end.

(** The text after the exponent mark of a number literal. *)
Fixpoint afterExponent (s : string) : option string :=
  match s with
  | EmptyString => None
  | String c rest =>
      if decide (c = "e"%char ∨ c = "E"%char) then Some rest
      else afterExponent rest
  end.

(** Whether the mantissa of a number literal has a digit other than 0. *)
Fixpoint mantissaNonZero (s : string) : bool :=
  match s with
  | EmptyString => false
  | String c rest =>
      if decide (c = "e"%char ∨ c = "E"%char) then false
      else
        let n := Ascii.nat_of_ascii c in
        ((49 <=? n)%nat && (n <=? 57)%nat) || mantissaNonZero rest
  end.

(** The example runtime keeps a number literal as it is written, and takes
    a literal with a non-zero mantissa and a decimal exponent of 400 or
    more to be out of the range of [float64] (whose largest value is below
    1.8e308). *)
Definition exampleFormatFloat64 (literal : string) : option string :=
  match afterExponent literal with
  | None => Some literal
  | Some (String "-"%char _) => Some literal
  | Some e =>
      let ds := match e with String "+"%char rest => rest | _ => e end in
      if (400 <=? digitsValue ds 0)%nat && mantissaNonZero literal
      then None else Some literal
  end.

Import reflect.

(** Values of the fields of the example parameter structs. *)
Inductive GoVal : Type :=
| BoolVal (b : bool)
| NumberVal (literal : string)
| StringVal (s : string)
| OtherVal (v : option JSON).

Definition isNumeric (k : Kind) : bool :=
  match k with
  | Int | Int8 | Int16 | Int32 | Int64
  | Uint | Uint8 | Uint16 | Uint32 | Uint64 | Uintptr
  | Float32 | Float64 => true
  | _ => false
  end.

Definition zeroOf (t : Type_) : GoVal :=
  match Kind_of t with
  | Bool => BoolVal false
  | String => StringVal ""
  | k => if isNumeric k then NumberVal "0" else OtherVal None
  end.

(** Storing one JSON value into a field: [null] changes nothing, a value
    of the wrong JSON type is refused. *)
Definition unmarshalInto (t : Type_) (v : JSON) (old : GoVal) : error + GoVal :=
  match v, Kind_of t with
  | JNull, _ => inr old
  | JBool b, Bool => inr (BoolVal b)
  | JString s, String => inr (StringVal s)
  | JNumber n, k =>
      if isNumeric k then inr (NumberVal n)
      else if decide (k = Interface) then inr (OtherVal (Some v))
      else inl (UnmarshalTypeError "")
  | _, Interface => inr (OtherVal (Some v))
  | _, _ => inl (UnmarshalTypeError "")
  end.

Definition schemaTypeOf (t : Type_) : string :=
  match Kind_of t with
  | Bool => "boolean"
  | String => "string"
  | Float32 | Float64 => "number"
  | Array | Slice => "array"
  | Struct | Map => "object"
  | k => if isNumeric k then "integer" else ""
  end.

(** The property the reflector makes of one field: its name, its schema,
    and whether it is required (no [omitempty] in the [json] tag); [None]
    for a field it skips. *)
Definition reflectField (f : StructField Type_)
  : option (string * jsonschema.Schema * bool) :=
  let tags := splitComma (Get (Tag f) "json") in
  if decide (tags = ["-"]) then None
  else if negb (Exported f) then None
  else
    let name := if decide (head tags = Some "" ∨ head tags = None)
                then Name f else default "" (head tags) in
    Some (name,
          jsonschema.mkSchema (schemaTypeOf (FieldType f)) "" None [],
          bool_decide ("omitempty" ∉ tail tags)).

(** Modelled from the spec: the schema reflector of
    github.com/invopop/jsonschema, which is not in the repository.  The
    specification (4.1) has one property per field of the parameter type,
    its type inferred from the field's primitive type; as the library does
    with [DoNotReference], a field that is not exported or is tagged
    [json:"-"] is skipped, a property is named by the [json] tag or else by
    the Go name of the field, and it is required unless the tag has
    [omitempty].  Nested and embedded structs are not expanded. *)
Definition reflectStruct (t : Type_) : jsonschema.Schema :=
  match t with
  | StructOf fs _ =>
      let ps := omap reflectField fs in
      jsonschema.mkSchema "object" ""
        (Some ((fun p => (p.1.1, p.1.2)) <$> ps))
        ((fun p => p.1.1) <$> filter (fun p => p.2 = true) ps)
  | _ => jsonschema.mkSchema (schemaTypeOf t) "" None []
  end.

#[global] Instance goRuntime : Runtime := {|
  Val := GoVal;
  zeroValue := zeroOf;
  unmarshalValue := unmarshalInto;
  foldName := lower;
  Reflect := reflectStruct;
  formatFloat64 := exampleFormatFloat64
|}.

Import mcp.

Definition float64 : Type_ := Plain PFloat64 false.
Definition context_Context : Type_ := Plain PInterface true.

(** [AddParams] and [SubtractParams] of the calculator server. *)
Definition AddParams : Type_ :=
  StructOf
    [ mkField "A" float64
        [("json", "a"); ("description", "The first number to add.")] true;
      mkField "B" float64
        [("json", "b"); ("description", "The second number to add.")] true ]
    false.

Definition SubtractParams : Type_ :=
  StructOf
    [ mkField "A" float64
        [("json", "a");
         ("description", "The number to subtract from (minuend).")] true;
      mkField "B" float64
        [("json", "b");
         ("description", "The number to subtract (subtrahend).")] true ]
    false.

(** A handler [func(ctx context.Context, params *P) (string, error)] that
    reports its two operands and never fails. *)
Definition binaryHandler (P : Type_) (what : string) : HandlerValue :=
  {| TypeOf := FuncOf [context_Context; PtrTo P false] false;
     Call := fun args =>
       match args with
       | [ArgContext; ArgInput [NumberVal a; NumberVal b]] =>
           Return [PlainValue (what ++ " of " ++ a ++ " and " ++ b); NilValue]
       | _ => Return [PlainValue what; NilValue]
       end |}.

(** A handler [func(params *P) (string, error)] that always fails. *)
Definition failingHandler (P : Type_) (msg : string) : HandlerValue :=
  {| TypeOf := FuncOf [PtrTo P false] false;
     Call := fun _ => Return [PlainValue ""; ErrorValue msg] |}.

Definition toolNamed (name : string) : protocol.Tool :=
  {| protocol.Name := name; protocol.Title := "";
     protocol.Description := ""; protocol.InputSchema := None |}.

Definition addTool : ToolRegistration :=
  {| Definition_ :=
       {| protocol.Name := "calculator/add"; protocol.Title := "Add Numbers";
          protocol.Description := "Calculates the sum of two numbers, a and b.";
          protocol.InputSchema := None |};
     Handler := Some (binaryHandler AddParams "sum") |}.

Definition subtractTool : ToolRegistration :=
  {| Definition_ :=
       {| protocol.Name := "calculator/subtract";
          protocol.Title := "Subtract Numbers";
          protocol.Description :=
            "Calculates the difference between two numbers, a - b.";
          protocol.InputSchema := None |};
     Handler := Some (binaryHandler SubtractParams "difference") |}.

Definition toolsToRegister : list ToolRegistration := [addTool; subtractTool].

Definition server : Server :=
  NewServer "GoCalculatorServer" "1.0.0"
    {| protocol.Tools := Some false; protocol.Resources := None;
       protocol.Prompts := None; protocol.Logging := false |}.

(** A value that is no function, given as handler. *)
Definition notAFunction : HandlerValue :=
  {| TypeOf := Plain PInt false; Call := fun _ => Panic |}.

(** A struct type whose pointer type has the methods of
    [context.Context] (a hand-written context), and a handler taking only
    that pointer. *)
Definition myContext : Type_ := PtrTo (StructOf [] false) true.


Definition MultiplyParams : Type_ :=
  StructOf
    [ mkField "A" float64 [("json", "a"); ("description", "First factor.")] true;
      mkField "B" float64 [("json", "b"); ("description", "Second factor.")] true ]
    false.

(** A registration whose handler takes its parameters by value:
    [func(ctx context.Context, params MultiplyParams) (string, error)]. *)
Definition multiplyTool : ToolRegistration :=
  {| Definition_ := toolNamed "calculator/multiply";
     Handler :=
       Some {| TypeOf := FuncOf [context_Context; MultiplyParams] false;
               Call := fun _ => Return [PlainValue "product"; NilValue] |} |}.

Definition divideTool : ToolRegistration :=
  {| Definition_ := toolNamed "calculator/divide";
     Handler := Some (failingHandler AddParams "division by zero") |}.

Definition negateTool : ToolRegistration :=
  {| Definition_ := toolNamed "calculator/negate";
     Handler := Some (binaryHandler SubtractParams "negation") |}.

(** Five registrations, the third of them invalid. *)
Definition fiveTools : list ToolRegistration :=
  [addTool; subtractTool; multiplyTool; divideTool; negateTool].



(** The server after [registerSingleTool] of one registration. *)
Definition registered (s : Server) (reg : ToolRegistration) : Server :=
  match registerSingleTool s reg with
  | Return (s', _) => s'
  | Panic => s
  end.

(** The calculator server with a third tool whose handler always fails. *)
Definition demoServer : Server :=
  match RegisterTools server [addTool; subtractTool; divideTool] with
  | Return (s, _) => s
  | Panic => server
  end.

(** The request [{"jsonrpc":"2.0","id":1,"method":"tools/call",
    "params":{"name":name,"arguments":{...}}}], decoded. *)
Definition callRequest (name : string) (arguments : list (string * JSON))
  : protocol.Request :=
  {| protocol.Request_JSONRPC := "2.0";
     protocol.Request_ID := protocol.IDNumber "1";
     protocol.Request_Method := "tools/call";
     protocol.Request_Params :=
       Some (JObject [("name", JString name);
                      ("arguments", JObject arguments)]) |}.

(** The request [{"jsonrpc":"2.0","id":id,"method":"initialize",
    "params":{"protocolVersion":"2025-06-18"}}], decoded. *)
Definition initializeRequest (id : string) : protocol.Request :=
  {| protocol.Request_JSONRPC := "2.0";
     protocol.Request_ID := protocol.IDString id;
     protocol.Request_Method := "initialize";
     protocol.Request_Params :=
       Some (JObject [("protocolVersion", JString "2025-06-18")]) |}.

(** A registered tool, looked up by name. *)
Definition registeredTool (s : Server) (name : string)
  : internalRegisteredTool :=
  default {| tool_Definition := toolNamed "";
             handlerValue := notAFunction;
             inputType := float64; takesContext := false |}
    (tools s !! name).


End example.

(** ** Further predicates on the model *)

Section Invariants.
Context {R : Runtime}.
Import reflect mcp.

(** What registration establishes for a registry entry stored under
    [name]: the definition carries that name, which is not empty; the
    handler is a function of one or two parameters according to
    [takesContext], whose last parameter is the recorded input type, a
    pointer to a struct; with [takesContext] the first parameter implements
    [context.Context]; and the definition carries the schema generated for
    the input type. *)
Definition toolOK (name : string) (t : internalRegisteredTool) : Prop :=
  protocol.Name (tool_Definition t) = name
  ∧ name ≠ ""
  ∧ Kind_of (TypeOf (handlerValue t)) = Func
  ∧ NumIn (TypeOf (handlerValue t)) = (if takesContext t then 2 else 1)%nat
  ∧ Ins (TypeOf (handlerValue t)) !! (NumIn (TypeOf (handlerValue t)) - 1)%nat
    = Some (inputType t)
  ∧ (∃ fs c c', inputType t = PtrTo (StructOf fs c) c')
  ∧ (Implements_Context <$> Ins (TypeOf (handlerValue t)) !! 0%nat)
    = Some (takesContext t)
  ∧ generateSchemaForType (inputType t)
    = inr (protocol.InputSchema (tool_Definition t)).

Definition registryOK (s : Server) : Prop :=
  ∀ name t, tools s !! name = Some t → toolOK name t.

(** The server [s'] is [s] with at most one session stored, under the
    identifier of the clock reading [now]. *)
Definition atMostOneSession (s : Server) (now : Z) (s' : Server) : Prop :=
  s' = s
  ∨ ∃ session, s' = setSessions s (<[sessionIDOf now := session]> (sessions s)).

(** The HTTP status goes with what was written: 200 with a result, 400
    with the errors [-32700] and [-32602], 404 with [-32601]; 405 or 500
    with a plain text; 200, 202 or 400 with nothing. *)
Definition statusMatches (w : ResponseWriter) : Prop :=
  match Body w with
  | Envelope resp =>
      match protocol.Error_ resp with
      | None => is_Some (protocol.Result resp) ∧ StatusCode w = Some 200%Z
      | Some e =>
          ((protocol.Code e = (-32700)%Z ∨ protocol.Code e = (-32602)%Z)
           ∧ StatusCode w = Some 400%Z)
          ∨ (protocol.Code e = (-32601)%Z ∧ StatusCode w = Some 404%Z)
      end
  | PlainText _ => StatusCode w = Some 405%Z ∨ StatusCode w = Some 500%Z
  | NoBody =>
      StatusCode w = Some 200%Z ∨ StatusCode w = Some 202%Z
      ∨ StatusCode w = Some 400%Z
  end.

(** The JSON name under which step 3 of the schema generator lists a
    field as required: the name part of a [json] tag that is neither
    empty nor ["-"]. *)
Definition requiredName (f : StructField Type_) : option string :=
  let jsonTag := Get (Tag f) "json" in
  if decide (jsonTag ≠ "" ∧ jsonTag ≠ "-")
  then Some (json.beforeComma jsonTag) else None.

(** The property [p'] is [p], or [p] with the description tag of a field
    whose [json] tag names [key]. *)
Definition describedFrom (fs : list (StructField Type_)) (key : string)
  (p p' : jsonschema.Schema) : Prop :=
  p' = p
  ∨ ∃ f, f ∈ fs ∧ requiredName f = Some key
      ∧ Get (Tag f) "description" ≠ ""
      ∧ p' = jsonschema.setDescription (Get (Tag f) "description") p.

(** The relation between a reflected property and what the generator
    makes of it. *)
Definition generatedFrom (fs : list (StructField Type_))
  (p p' : string * jsonschema.Schema) : Prop :=
  p'.1 = p.1 ∧ describedFrom fs p.1 p.2 p'.2.

(** The headers go with what was written and stored: an envelope is
    sent as [application/json], and a session identifier is announced only
    when it is the one made of the clock reading [now] and a session is
    stored under it. *)
Definition headersMatch (now : Z) (s' : Server) (w' : ResponseWriter) : Prop :=
  (∀ resp, Body w' = Envelope resp →
     Header w' !! "Content-Type" = Some "application/json")
  ∧ (∀ id, sessionHeader w' = Some id →
       id = sessionIDOf now ∧ is_Some (sessions s' !! id)).

(** The success envelope for [id] holding [result]. *)
Definition isResultEnvelope (b : Written) (id : protocol.RequestID)
  (result : protocol.ResultValue) : Prop :=
  b = Envelope {| protocol.JSONRPC := "2.0"; protocol.ID := id;
                  protocol.Result := Some result;
                  protocol.Error_ := None |}.

End Invariants.

(** ** Package logger (internal/logger) *)

Module logger.

(** [logrus.Level] and [Level.String]. *)
Inductive Level : Set :=
| PanicLevel | FatalLevel | ErrorLevel | WarnLevel
| InfoLevel | DebugLevel | TraceLevel.

Definition Level_String (l : Level) : string :=
  match l with
  | PanicLevel => "panic" | FatalLevel => "fatal" | ErrorLevel => "error"
  | WarnLevel => "warning" | InfoLevel => "info" | DebugLevel => "debug"
  | TraceLevel => "trace"
  end.

(** The part of [logrus.Entry] the formatter reads; [Time] is held by its
    rendering [entry.Time.Format("2006/01/02 - 15:04:05")]. *)
Record Entry : Type := {
  EntryLevel : Level;
  TimeFormatted : string;
  Message : string
}.

Definition upperChar (c : ascii) : ascii :=
  let n := Ascii.nat_of_ascii c in
  if (97 <=? n)%nat && (n <=? 122)%nat then Ascii.ascii_of_nat (n - 32) else c.

(** [strings.ToUpper] on ASCII text. *)
Fixpoint ToUpper (s : string) : string :=
  match s with
  | EmptyString => EmptyString
  | String c rest => String (upperChar c) (ToUpper rest)
  end.

Fixpoint spaces (n : nat) : string :=
  match n with
  | O => EmptyString
  | S n => String " "%char (spaces n)
  end.

(** [fmt.Sprintf("% -5s", s)]: [s] padded with spaces on the right to five
    characters, never cut. *)
Definition padLevel (s : string) : string :=
  s ++ spaces (5 - String.length s).

(** The escape character of the ANSI colour codes. *)
Definition esc : string := String (Ascii.ascii_of_nat 27) EmptyString.

Definition levelColorOf (l : Level) : string :=
  match l with
  | InfoLevel => esc ++ "[32m"
  | WarnLevel => esc ++ "[33m"
  | ErrorLevel | FatalLevel | PanicLevel => esc ++ "[31m"
  | DebugLevel => esc ++ "[36m"
  | TraceLevel => esc ++ "[37m"
  end.

Definition resetColor : string := esc ++ "[0m".

Definition newline : string := String (Ascii.ascii_of_nat 10) EmptyString.

(** [GinStyleFormatter.Format]: the bytes and the error (always nil). *)
Definition Format (entry : Entry) : string * option error :=
  let levelColor := levelColorOf (EntryLevel entry) in
  let timestamp := TimeFormatted entry in
  let level := padLevel (ToUpper (Level_String (EntryLevel entry))) in
  (levelColor ++ "[" ++ timestamp ++ "] " ++ level ++ resetColor ++ " | "
     ++ Message entry ++ newline,
   None).

(** The text in front of the message in a formatted entry. *)
Definition prefixOf (entry : Entry) : string :=
  levelColorOf (EntryLevel entry) ++ "[" ++ TimeFormatted entry ++ "] "
    ++ padLevel (ToUpper (Level_String (EntryLevel entry)))
    ++ resetColor ++ " | ".

End logger.

(** ** Further requests and tools for the calculator server *)

Module fixtures.
Import reflect mcp example.

(** A handler [func(params *AddParams) error] that succeeds. *)
Definition resetTool : ToolRegistration :=
  {| Definition_ := toolNamed "calculator/reset";
     Handler :=
       Some {| TypeOf := FuncOf [PtrTo AddParams false] false;
               Call := fun _ => Return [NilValue] |} |}.

(** The calculator server with the reset tool. *)
Definition resetServer : Server := registered demoServer resetTool.

(** The server and the writer after one request on a fresh writer. *)
Definition serverAfter (s : Server) (now : Z) (r : http_Request) : Server :=
  match (handleMCPRequest s now newResponseWriter r).2 with
  | Return (s', _) => s'
  | Panic => s
  end.

Definition writerAfter (s : Server) (now : Z) (r : http_Request)
  : ResponseWriter :=
  match (handleMCPRequest s now newResponseWriter r).2 with
  | Return (_, w') => w'
  | Panic => newResponseWriter
  end.

(** A POST of [{"jsonrpc":"2.0","id":"a","method":"initialize",
    "params":{"protocolVersion":"2025-06-18"}}]. *)
Definition initializePost : http_Request :=
  {| Method := "POST";
     http_Body :=
       JSONText
         (JObject [("jsonrpc", JString "2.0"); ("id", JString "a");
                   ("method", JString "initialize");
                   ("params",
                    JObject [("protocolVersion", JString "2025-06-18")])]) |}.

(** What these parameters decode to. *)
Definition initializeParams : protocol.InitializeRequest :=
  {| protocol.InitializeRequest_ProtocolVersion := "2025-06-18";
     protocol.ClientInfo :=
       {| protocol.Info_Name := ""; protocol.Info_Version := "";
          protocol.Info_Title := "" |};
     protocol.InitializeRequest_Capabilities :=
       {| protocol.Roots := false; protocol.Sampling := false;
          protocol.Elicitation := false |} |}.

(** A DELETE request, and a POST of the JSON array [[]]. *)
Definition deleteRequest : http_Request :=
  {| Method := "DELETE"; http_Body := JSONText JNull |}.

Definition arrayPost : http_Request :=
  {| Method := "POST"; http_Body := JSONText (JArray []) |}.

(** A request for a method the server does not have, and an
    [initialize] without parameters. *)
Definition resourcesListRequest : protocol.Request :=
  {| protocol.Request_JSONRPC := "2.0";
     protocol.Request_ID := protocol.IDNumber "7";
     protocol.Request_Method := "resources/list";
     protocol.Request_Params := None |}.

Definition initializeWithoutParams : protocol.Request :=
  {| protocol.Request_JSONRPC := "2.0";
     protocol.Request_ID := protocol.IDNumber "8";
     protocol.Request_Method := "initialize";
     protocol.Request_Params := None |}.

(** A second registration of the name ["calculator/add"], with another
    title and another handler. *)
Definition addAgain : ToolRegistration :=
  {| Definition_ :=
       {| protocol.Name := "calculator/add"; protocol.Title := "Add Again";
          protocol.Description := "A second tool of the same name.";
          protocol.InputSchema := None |};
     Handler := Some (binaryHandler SubtractParams "difference") |}.

(** A tool whose handler is
    [func(ctx *myContext, params *AddParams) (string, error)]: its first
    parameter implements [context.Context], and [context.Background()] is
    not assignable to it, so [reflect.Value.Call] panics. *)
Definition concreteContextTool : ToolRegistration :=
  {| Definition_ := toolNamed "calculator/ctx";
     Handler :=
       Some {| TypeOf := FuncOf [myContext; PtrTo AddParams false] false;
               Call := fun _ => Panic |} |}.

(** A struct whose two numeric fields are named [a] and [b] in Go, so
    they are not exported:
    [struct { a float64 `json:"a" description:"..."`; b float64 ... }]. *)
Definition unexportedParams : Type_ :=
  StructOf
    [ mkField "a" float64
        [("json", "a"); ("description", "The first number.")] false;
      mkField "b" float64
        [("json", "b"); ("description", "The second number.")] false ]
    false.

(** Schema synthesis read literally, for a struct type [t] whose two
    fields [a] and [b] carry the descriptions [da] and [db]: the schema
    has exactly the properties [a] and [b], with these descriptions, and
    lists both as required. *)
Definition schema_as_stated (t : Type_) (da db : string) : Prop :=
  ∃ schema pa pb,
    generateSchemaForType (PtrTo t false) = inr (Some schema)
    ∧ jsonschema.Properties schema = Some [("a", pa); ("b", pb)]
    ∧ jsonschema.Description pa = da
    ∧ jsonschema.Description pb = db
    ∧ "a" ∈ jsonschema.Required schema
    ∧ "b" ∈ jsonschema.Required schema.


(** The properties the example reflector makes of [AddParams]. *)
Definition addParamsProperties : list (string * jsonschema.Schema) :=
  [("a", jsonschema.mkSchema "number" "" None []);
   ("b", jsonschema.mkSchema "number" "" None [])].

End fixtures.

(** * Properties *)

(** ** Registration *)

Section Registration.
Context {R : Runtime}.
Import reflect mcp.



(** A registration that returns an error leaves the server as it was. *)
Lemma registerSingleTool_error_unchanged s reg s' err :
  registerSingleTool s reg = Return (s', Some err) → s' = s.
Proof.
  unfold registerSingleTool. intros H.
  repeat (case_decide || case_match); by simplify_eq.
Qed.

(** What a successful registration did. *)
Lemma registerSingleTool_success s reg s' :
  registerSingleTool s reg = Return (s', None) →
  ∃ h inputType sch takes,
    Handler reg = Some h ∧
    protocol.Name (Definition_ reg) ≠ "" ∧
    tools s !! protocol.Name (Definition_ reg) = None ∧
    generateSchemaForType inputType = inr sch ∧
    s' = setTools s
           (<[protocol.Name (Definition_ reg) :=
                {| tool_Definition := setInputSchema (Definition_ reg) sch;
                   handlerValue := h; inputType := inputType;
                   takesContext := takes |}]> (tools s)).
Proof.
  unfold registerSingleTool. intros H.
  repeat (case_decide || case_match); simplify_eq;
    eexists _, _, _, _; split_and!; try reflexivity; done.
Qed.



(** Registering a batch commits every registration in front of the first
    one that fails. *)
Lemma RegisterTools_prefix_committed s reg s1 bad err rest :
  registerSingleTool s reg = Return (s1, None) →
  registerSingleTool s1 bad = Return (s1, Some err) →
  RegisterTools s (reg :: bad :: rest)
  = Return (s1, Some (ErrFailedToRegister
                        (protocol.Name (Definition_ bad)) err))
  ∧ is_Some (tools s1 !! protocol.Name (Definition_ reg)).
Proof.
  intros Hok Hbad. split.
  - simpl. by rewrite Hok, Hbad.
  - apply registerSingleTool_success in Hok
      as (h & t & sch & takes & _ & _ & _ & _ & ->).
    simpl. rewrite lookup_insert_eq. by eexists.
Qed.








End Registration.

(** ** Registration on the calculator server *)

Section CalculatorRegistration.
Import reflect mcp example.

(** C1: the batch of five registrations whose third is invalid returns the
    error of the third, and the two tools in front of it stay registered:
    the batch is not atomic. *)
Theorem RegisterTools_commits_tools_before_failure :
  ∃ s' cause,
    RegisterTools server fiveTools
    = Return (s', Some (ErrFailedToRegister "calculator/multiply" cause))
    ∧ is_Some (tools s' !! "calculator/add")
    ∧ is_Some (tools s' !! "calculator/subtract")
    ∧ tools s' !! "calculator/multiply" = None
    ∧ tools s' !! "calculator/divide" = None
    ∧ tools s' !! "calculator/negate" = None.
Proof.
  exists (registered (registered server addTool) subtractTool),
         (ErrParamType MultiplyParams).
  split_and!; first [reflexivity | eexists; reflexivity].
Qed.



(** After the refused second registration the name still has the title
    and the handler of the first. *)
Example duplicate_keeps_first_definition :
  ∃ t, tools (registered (registered server addTool) fixtures.addAgain)
         !! "calculator/add" = Some t
    ∧ protocol.Title (tool_Definition t) = "Add Numbers"
    ∧ handlerValue t = binaryHandler AddParams "sum".
Proof. eexists. split_and!; reflexivity. Qed.



End CalculatorRegistration.

(** ** Schema synthesis *)

Section Schema.
Context {R : Runtime}.
Import reflect mcp.

Lemma beforeComma_tag_usable tag name :
  json.beforeComma tag = name → name ≠ "" → name ≠ "-" →
  tag ≠ "" ∧ tag ≠ "-".
Proof.
  intros Hb Hne Hnd. split; intros ->; simpl in Hb; congruence.
Qed.

(** What the generator adds on its own, whatever the reflector: for a
    parameter struct of two fields with the JSON names [a] and [b], each
    with a description tag, for which the reflector yields the properties
    [a] and [b], the generated schema has exactly the properties [a] and
    [b], each the reflected one with the description of the field's tag,
    and lists both names as required. *)
Lemma generateSchemaForType_two_described_fields
  (fa fb : StructField Type_) (c c' : bool) (da db : string)
  (pa pb : jsonschema.Schema) :
  json.beforeComma (Get (Tag fa) "json") = "a" →
  json.beforeComma (Get (Tag fb) "json") = "b" →
  Get (Tag fa) "description" = da → da ≠ "" →
  Get (Tag fb) "description" = db → db ≠ "" →
  jsonschema.Properties (Reflect (StructOf [fa; fb] c))
  = Some [("a", pa); ("b", pb)] →
  ∃ schema pa' pb',
    generateSchemaForType (PtrTo (StructOf [fa; fb] c) c')
    = inr (Some schema)
    ∧ jsonschema.Properties schema = Some [("a", pa'); ("b", pb')]
    ∧ jsonschema.Description pa' = da
    ∧ jsonschema.SchemaType pa' = jsonschema.SchemaType pa
    ∧ jsonschema.Description pb' = db
    ∧ jsonschema.SchemaType pb' = jsonschema.SchemaType pb
    ∧ "a" ∈ jsonschema.Required schema
    ∧ "b" ∈ jsonschema.Required schema.
Proof.
  intros Hja Hjb Hda Hnea Hdb Hneb Hprops.
  destruct (beforeComma_tag_usable _ _ Hja) as [Ha1 Ha2]; [done..|].
  destruct (beforeComma_tag_usable _ _ Hjb) as [Hb1 Hb2]; [done..|].
  unfold generateSchemaForType. simpl.
  rewrite Hprops. simpl.
  eexists _, (jsonschema.setDescription da pa),
    (jsonschema.setDescription db pb).
  split; [reflexivity|]. simpl.
  unfold addDescription, addRequired.
  rewrite !(decide_False (P := _ ∨ _)) by tauto.
  rewrite !(decide_True (P := _ ∧ _)) by tauto.
  rewrite Hja, Hjb, Hda, Hdb. simpl.
  rewrite !decide_True by done. simpl.
  split_and!; try reflexivity.
  - rewrite !elem_of_app. left; right. apply list_elem_of_singleton. done.
  - rewrite !elem_of_app. right. by apply list_elem_of_singleton.
Qed.

End Schema.

Section SchemaOfTwoNumericFields.
Import reflect mcp example.

(** C4 (amended): for every struct parameter type with two exported
    numeric fields (of an integer or floating-point kind other than
    [uintptr]) that their [json] tags name [a] and [b], each carrying a
    non-empty description tag and no other tag, schema synthesis yields a
    schema whose properties are exactly [a] and [b], each of type number
    or integer and annotated with the description of the field's tag, with
    both names listed as required. *)
Theorem generateSchemaForType_two_numeric_fields
  (nameA nameB : string) (ka kb : PlainKind) (ca cb c c' : bool)
  (da db : string) :
  isNumeric (plainKind ka) = true → isNumeric (plainKind kb) = true →
  ka ≠ PUintptr → kb ≠ PUintptr →
  da ≠ "" → db ≠ "" →
  ∃ schema pa pb,
    generateSchemaForType
      (PtrTo (StructOf
                [ mkField nameA (Plain ka ca)
                    [("json", "a"); ("description", da)] true;
                  mkField nameB (Plain kb cb)
                    [("json", "b"); ("description", db)] true ] c) c')
    = inr (Some schema)
    ∧ jsonschema.Properties schema = Some [("a", pa); ("b", pb)]
    ∧ jsonschema.Description pa = da
    ∧ jsonschema.Description pb = db
    ∧ (jsonschema.SchemaType pa = "number"
       ∨ jsonschema.SchemaType pa = "integer")
    ∧ (jsonschema.SchemaType pb = "number"
       ∨ jsonschema.SchemaType pb = "integer")
    ∧ "a" ∈ jsonschema.Required schema
    ∧ "b" ∈ jsonschema.Required schema.
Proof.
  intros Hka Hkb Hua Hub Hda Hdb.
  destruct (generateSchemaForType_two_described_fields (R := goRuntime)
              (mkField nameA (Plain ka ca)
                 [("json", "a"); ("description", da)] true)
              (mkField nameB (Plain kb cb)
                 [("json", "b"); ("description", db)] true)
              c c' da db
              (jsonschema.mkSchema (schemaTypeOf (Plain ka ca)) "" None [])
              (jsonschema.mkSchema (schemaTypeOf (Plain kb cb)) "" None [])
              eq_refl eq_refl eq_refl Hda eq_refl Hdb eq_refl)
    as (schema & pa & pb & Hgen & Hprops & Hpa & Hta & Hpb & Htb & Hra & Hrb).
  exists schema, pa, pb. split_and!; try done.
  - rewrite Hta. simpl. destruct ka; simpl in Hka; try done; auto.
  - rewrite Htb. simpl. destruct kb; simpl in Hkb; try done; auto.
Qed.

Lemma generateSchemaForType_two_numeric_fields_witness :
  ∃ schema pa pb,
    generateSchemaForType (PtrTo AddParams false) = inr (Some schema)
    ∧ jsonschema.Properties schema = Some [("a", pa); ("b", pb)]
    ∧ jsonschema.Description pa = "The first number to add."
    ∧ jsonschema.Description pb = "The second number to add."
    ∧ (jsonschema.SchemaType pa = "number"
       ∨ jsonschema.SchemaType pa = "integer")
    ∧ (jsonschema.SchemaType pb = "number"
       ∨ jsonschema.SchemaType pb = "integer")
    ∧ "a" ∈ jsonschema.Required schema
    ∧ "b" ∈ jsonschema.Required schema.
Proof.
  apply (generateSchemaForType_two_numeric_fields "A" "B" PFloat64 PFloat64
           false false false false
           "The first number to add." "The second number to add.").
  - reflexivity.
  - reflexivity.
  - discriminate.
  - discriminate.
  - discriminate.
  - discriminate.
Defined.

(** C4, as stated, fails: for a struct whose numeric fields [a] and [b]
    are not exported, the reflector makes no property, and the generator
    lists [a] and [b] as required all the same. *)
Lemma schema_as_stated_fails :
  ¬ fixtures.schema_as_stated fixtures.unexportedParams
      "The first number." "The second number.".
Proof.
  intros (schema & pa & pb & Hgen & Hprops & _).
  assert (∃ sch,
            generateSchemaForType (PtrTo fixtures.unexportedParams false)
            = inr (Some sch)
            ∧ jsonschema.Properties sch = Some []) as (sch & Hs & Hp)
    by (eexists; split; reflexivity).
  rewrite Hs in Hgen. injection Hgen as <-.
  rewrite Hp in Hprops. discriminate Hprops.
Qed.

(** The schema generated for that struct. *)
Example unexported_fields_are_required_only :
  generateSchemaForType (PtrTo fixtures.unexportedParams false)
  = inr (Some (jsonschema.mkSchema "object" "" (Some []) ["a"; "b"])).
Proof. reflexivity. Qed.

End SchemaOfTwoNumericFields.

(** ** Response envelopes *)

Section Envelopes.
Context {R : Runtime}.
Import reflect mcp.

Lemma writeErrorResponse_Body w id code message data :
  isErrorEnvelope (Body (writeErrorResponse w id code message data)) id code.
Proof. unfold writeErrorResponse. by eexists. Qed.

Lemma writeErrorResponse_StatusCode w id code message data :
  StatusCode w = None →
  StatusCode (writeErrorResponse w id code message data)
  = Some (if decide (code = (-32700)%Z ∨ code = (-32600)%Z ∨ code = (-32602)%Z)
          then 400%Z
          else if decide (code = (-32601)%Z) then 404%Z else 500%Z).
Proof.
  intros Hw. unfold writeErrorResponse.
  repeat case_decide; simpl; by rewrite Hw.
Qed.

Lemma writeSuccessResponse_Body w id result :
  Body (writeSuccessResponse w id result)
  = Envelope {| protocol.JSONRPC := "2.0"; protocol.ID := id;
                protocol.Result := Some result; protocol.Error_ := None |}.
Proof. reflexivity. Qed.

Lemma handleNotification_status w n :
  handleNotification w n = WriteHeader w 202%Z.
Proof. unfold handleNotification. by case_decide. Qed.

Lemma writeErrorResponse_exactlyOne w id code message data :
  envelopeOK (Body (writeErrorResponse w id code message data)).
Proof. simpl. right. split; [done|by eexists]. Qed.

Lemma writeSuccessResponse_exactlyOne w id result :
  envelopeOK (Body (writeSuccessResponse w id result)).
Proof. simpl. left. split; [by eexists|done]. Qed.

Lemma handleCallTool_exactlyOne s w req :
  match (handleCallTool s w req).2 with
  | Return w' => envelopeOK (Body w')
  | Panic => True
  end.
Proof.
  unfold handleCallTool.
  repeat case_match; simplify_eq/=; try done;
    first [ by (right; split; [done|by eexists])
          | by (left; split; [by eexists|done]) ].
Qed.

Lemma handleRequest_exactlyOne s now w req :
  outcomeOK (handleRequest s now w req).2.
Proof.
  unfold handleRequest.
  repeat case_decide.
  - unfold handleInitialize. case_match; simpl.
    + right. split; [done|by eexists].
    + left. split; [by eexists|done].
  - simpl. left. split; [by eexists|done].
  - pose proof (handleCallTool_exactlyOne s w req) as H'.
    destruct (handleCallTool s w req) as [calls [w'|]]; simpl in *; done.
  - simpl. right. split; [done|by eexists].
Qed.

(** C7: a success response has [result] and no [error], an error response
    has [error] and no [result], and whatever a request makes the router
    write on a fresh writer, an envelope among it carries exactly one of
    the two. *)
Theorem every_envelope_has_exactly_one :
  (∀ w id result,
     ∃ resp, Body (writeSuccessResponse w id result) = Envelope resp
       ∧ is_Some (protocol.Result resp) ∧ protocol.Error_ resp = None)
  ∧ (∀ w id code message data,
       ∃ resp, Body (writeErrorResponse w id code message data) = Envelope resp
         ∧ protocol.Result resp = None ∧ is_Some (protocol.Error_ resp))
  ∧ (∀ s now r, outcomeOK (handleMCPRequest s now newResponseWriter r).2).
Proof.
  split_and!.
  - intros. eexists. split; [apply writeSuccessResponse_Body|].
    split; [by eexists|done].
  - intros. eexists. split; [reflexivity|]. split; [done|by eexists].
  - intros s now r. unfold handleMCPRequest.
    repeat (case_decide || case_match); simplify_eq/=; try done;
      try (by (right; split; [done|by eexists])).
    all: try (rewrite handleNotification_status; done).
    all: apply handleRequest_exactlyOne.
Qed.

End Envelopes.

(** ** Tool calls *)

Section ToolCalls.
Context {R : Runtime}.
Import reflect mcp.

(** C5: a [tools/call] request whose tool name is not in the registry is
    answered with the JSON-RPC error [-32602] under the request's id (HTTP
    status 400 on a fresh writer), no handler is called, and the server
    state is the one before. *)
Theorem unknown_tool_is_invalid_params s now w req callParams :
  protocol.Request_Method req = "tools/call" →
  json.Unmarshal json.CallToolRequestFields (protocol.Request_Params req)
    json.zeroCallToolRequest = inr callParams →
  tools s !! protocol.CallToolRequest_Name callParams = None →
  ∃ w',
    handleRequest s now w req = ([], Return (s, w'))
    ∧ isErrorEnvelope (Body w') (protocol.Request_ID req) (-32602)%Z
    ∧ (StatusCode w = None → StatusCode w' = Some 400%Z).
Proof.
  intros Hm Hdec Hnone.
  unfold handleRequest, handleCallTool.
  rewrite Hm, Hdec, Hnone. simpl.
  eexists. split; [reflexivity|]. split.
  - apply writeErrorResponse_Body.
  - intros Hw. by rewrite writeErrorResponse_StatusCode.
Qed.

(** The tool call reaches [handlerValue.Call]: the parameters decode, the
    tool is registered with a pointer type, and the arguments decode into
    [inputValue]. *)
Lemma handleCallTool_invokes s w req callParams tool elemType c inputValue :
  json.Unmarshal json.CallToolRequestFields (protocol.Request_Params req)
    json.zeroCallToolRequest = inr callParams →
  tools s !! protocol.CallToolRequest_Name callParams = Some tool →
  inputType tool = PtrTo elemType c →
  unmarshalInput elemType (json.MarshalMap (protocol.Arguments callParams))
  = inr inputValue →
  let callArgs :=
    ((if takesContext tool then [ArgContext] else [])
     ++ [ArgInput inputValue])%list in
  handleCallTool s w req
  = ([ {| invokedTool := protocol.CallToolRequest_Name callParams;
          invokedArgs := callArgs |} ],
     match Call (handlerValue tool) callArgs with
     | Panic => Panic
     | Return results =>
       match last results with
       | None => Panic
       | Some (PlainValue _) => Panic
       | Some (ErrorValue msg) =>
           Return (writeSuccessResponse w (protocol.Request_ID req)
                     (textResult msg true))
       | Some NilValue =>
           Return (writeSuccessResponse w (protocol.Request_ID req)
                     (textResult
                        match results with
                        | r0 :: _ :: _ => Sprintf_v r0
                        | _ => "Operation completed successfully."
                        end false))
       end
     end).
Proof.
  intros Hdec Htool Hty Hin. unfold handleCallTool.
  rewrite Hdec, Htool, Hty. simpl. rewrite Hin. reflexivity.
Qed.

(** C6: when the handler of a registered tool is called on the decoded
    arguments and returns, and its last result is a non-nil error, the
    response is a success envelope (no [error] member, HTTP status 200 on
    a fresh writer) whose result has [isError = true] and one text block
    with the error's message; when the last result is nil and a value was
    returned in front of it, the result has [isError] unset and the text
    is that value rendered. *)
Theorem handler_outcome_is_tool_result
  s w req callParams tool elemType c inputValue results :
  json.Unmarshal json.CallToolRequestFields (protocol.Request_Params req)
    json.zeroCallToolRequest = inr callParams →
  tools s !! protocol.CallToolRequest_Name callParams = Some tool →
  inputType tool = PtrTo elemType c →
  unmarshalInput elemType (json.MarshalMap (protocol.Arguments callParams))
  = inr inputValue →
  Call (handlerValue tool)
    ((if takesContext tool then [ArgContext] else [])
     ++ [ArgInput inputValue])%list = Return results →
  (∀ msg, last results = Some (ErrorValue msg) →
     ∃ w', (handleCallTool s w req).2 = Return w'
       ∧ isToolResultEnvelope (Body w') (protocol.Request_ID req) msg true
       ∧ (StatusCode w = None → StatusCode w' = Some 200%Z))
  ∧ (∀ value rest, results = value :: rest → rest ≠ [] →
       last results = Some NilValue →
       ∃ w', (handleCallTool s w req).2 = Return w'
         ∧ isToolResultEnvelope (Body w') (protocol.Request_ID req)
             (Sprintf_v value) false
         ∧ (StatusCode w = None → StatusCode w' = Some 200%Z)).
Proof.
  intros Hdec Htool Hty Hin Hres.
  pose proof (handleCallTool_invokes s w req _ _ _ _ _ Hdec Htool Hty Hin)
    as Hcall.
  simpl in Hcall. rewrite Hres in Hcall. rewrite Hcall. simpl.
  split.
  - intros msg ->. eexists. split; [reflexivity|].
    split; [reflexivity|]. intros Hw. simpl. by rewrite Hw.
  - intros value rest -> Hrest Hlast. rewrite Hlast.
    destruct rest as [|r1 rest]; [done|].
    eexists. split; [reflexivity|].
    split; [reflexivity|]. intros Hw. simpl. by rewrite Hw.
Qed.

End ToolCalls.

Section CalculatorCalls.
Import reflect mcp example.

Lemma unknown_tool_is_invalid_params_witness :
  ∃ w',
    handleRequest demoServer 0 newResponseWriter
      (callRequest "calculator/modulo" [])
    = ([], Return (demoServer, w'))
    ∧ isErrorEnvelope (Body w') (protocol.IDNumber "1") (-32602)%Z
    ∧ (StatusCode newResponseWriter = None → StatusCode w' = Some 400%Z).
Proof.
  apply (unknown_tool_is_invalid_params demoServer 0 newResponseWriter
           (callRequest "calculator/modulo" [])
           {| protocol.CallToolRequest_Name := "calculator/modulo";
              protocol.Arguments := Some [] |}).
  - reflexivity.
  - reflexivity.
  - reflexivity.
Defined.

Lemma handler_outcome_is_tool_result_witness :
  (∃ w', (handleCallTool demoServer newResponseWriter
            (callRequest "calculator/divide"
               [("a", JNumber "1"); ("b", JNumber "0")])).2 = Return w'
     ∧ isToolResultEnvelope (Body w') (protocol.IDNumber "1")
         "division by zero" true
     ∧ (StatusCode newResponseWriter = None → StatusCode w' = Some 200%Z))
  ∧ (∃ w', (handleCallTool demoServer newResponseWriter
              (callRequest "calculator/add"
                 [("a", JNumber "2"); ("b", JNumber "3")])).2 = Return w'
       ∧ isToolResultEnvelope (Body w') (protocol.IDNumber "1")
           "sum of 2 and 3" false
       ∧ (StatusCode newResponseWriter = None → StatusCode w' = Some 200%Z)).
Proof.
  split.
  - refine (proj1 (handler_outcome_is_tool_result demoServer newResponseWriter
             (callRequest "calculator/divide"
                [("a", JNumber "1"); ("b", JNumber "0")])
             {| protocol.CallToolRequest_Name := "calculator/divide";
                protocol.Arguments :=
                  Some [("a", JNumber "1"); ("b", JNumber "0")] |}
             (registeredTool demoServer "calculator/divide")
             AddParams false [NumberVal "1"; NumberVal "0"]
             [PlainValue ""; ErrorValue "division by zero"]
             _ _ _ _ _) "division by zero" _);
      reflexivity.
  - refine (proj2 (handler_outcome_is_tool_result demoServer newResponseWriter
             (callRequest "calculator/add"
                [("a", JNumber "2"); ("b", JNumber "3")])
             {| protocol.CallToolRequest_Name := "calculator/add";
                protocol.Arguments :=
                  Some [("a", JNumber "2"); ("b", JNumber "3")] |}
             (registeredTool demoServer "calculator/add")
             AddParams false [NumberVal "2"; NumberVal "3"]
             [PlainValue "sum of 2 and 3"; NilValue]
             _ _ _ _ _) (PlainValue "sum of 2 and 3") [NilValue] _ _ _);
      first [ discriminate | reflexivity ].
Defined.

End CalculatorCalls.

(** ** Routing of POST payloads *)

Section Routing.
Context {R : Runtime}.
Import reflect mcp.



End Routing.


(** A request whose [id] is [null] reaches [handleRequest], with the empty
    string as its id. *)
Example null_id_is_a_request :
  json.Unmarshal json.RequestFields
    (Some (JObject [("jsonrpc", JString "2.0"); ("id", JNull);
                    ("method", JString "tools/list")]))
    json.zeroRequest
  = inr {| protocol.Request_JSONRPC := "2.0";
           protocol.Request_ID := protocol.IDString "";
           protocol.Request_Method := "tools/list";
           protocol.Request_Params := None |}.
Proof. reflexivity. Qed.

(** ** Session identifiers *)

Section Sessions.
Context {R : Runtime}.
Import reflect mcp.

Lemma sessionIDOf_inj (n1 n2 : Z) : sessionIDOf n1 = sessionIDOf n2 → n1 = n2.
Proof.
  unfold sessionIDOf. intros H.
  apply (inj (String.app "session-")) in H.
  by apply (inj pretty) in H.
Qed.

(** A successful [initialize] stores a session under the identifier made
    of the clock reading and announces it in the response header. *)
Lemma handleInitialize_success s now w req :
  initializeSucceeds req →
  ∃ caps result,
    handleInitialize s now w req
    = (setSessions s (<[sessionIDOf now := caps]> (sessions s)),
       writeSuccessResponse (HeaderSet w "Mcp-Session-Id" (sessionIDOf now))
         (protocol.Request_ID req) result).
Proof.
  intros [initParams Hdec]. unfold handleInitialize. rewrite Hdec.
  by eexists _, _.
Qed.

Lemma sessionHeader_writeSuccessResponse w id result sid :
  sessionHeader (writeSuccessResponse (HeaderSet w "Mcp-Session-Id" sid)
                   id result) = Some sid.
Proof.
  unfold sessionHeader. simpl.
  rewrite lookup_insert_ne by done. apply lookup_insert_eq.
Qed.

(** C9 (amended): two successful [initialize] calls in a row whose clock
    readings differ announce two distinct session identifiers, and after
    both calls each identifier maps to a stored session. *)
Theorem initialize_sessions_distinct s now1 now2 req1 req2 :
  initializeSucceeds req1 → initializeSucceeds req2 →
  now1 ≠ now2 →
  distinct_sessions s now1 now2 req1 req2.
Proof.
  intros H1 H2 Hne. unfold distinct_sessions.
  destruct (handleInitialize_success s now1 newResponseWriter req1 H1)
    as (caps1 & res1 & ->).
  destruct (handleInitialize_success
              (setSessions s (<[sessionIDOf now1 := caps1]> (sessions s)))
              now2 newResponseWriter req2 H2) as (caps2 & res2 & ->).
  exists (sessionIDOf now1), (sessionIDOf now2).
  rewrite !sessionHeader_writeSuccessResponse.
  split_and!; try done.
  - intros Heq. by apply sessionIDOf_inj in Heq.
  - simpl. rewrite lookup_insert_ne
      by (intros Heq; by apply sessionIDOf_inj in Heq).
    rewrite lookup_insert_eq. by eexists.
  - simpl. rewrite lookup_insert_eq. by eexists.
Qed.

End Sessions.

Section CalculatorSessions.
Import reflect mcp example.

(** C9, as stated, fails: two [initialize] calls that read the same clock
    value get the same session identifier. *)
Lemma distinct_sessions_as_stated_fails :
  ¬ distinct_sessions_as_stated demoServer
      1700000000000000000 1700000000000000000
      (initializeRequest "a") (initializeRequest "b").
Proof.
  intros H. unfold distinct_sessions_as_stated, distinct_sessions in H.
  assert (initializeSucceeds (initializeRequest "a")) as Ha
    by (eexists; reflexivity).
  assert (initializeSucceeds (initializeRequest "b")) as Hb
    by (eexists; reflexivity).
  specialize (H Ha Hb).
  destruct (handleInitialize_success demoServer 1700000000000000000
              newResponseWriter (initializeRequest "a") Ha)
    as (caps1 & res1 & Hinit1).
  rewrite Hinit1 in H.
  destruct (handleInitialize_success
              (setSessions demoServer
                 (<[sessionIDOf 1700000000000000000 := caps1]>
                    (sessions demoServer)))
              1700000000000000000
              newResponseWriter (initializeRequest "b") Hb)
    as (caps2 & res2 & Hinit2).
  rewrite Hinit2 in H.
  destruct H as (id1 & id2 & H1 & H2 & Hne & _).
  rewrite sessionHeader_writeSuccessResponse in H1, H2. congruence.
Qed.

Lemma initialize_sessions_distinct_witness :
  distinct_sessions demoServer 1700000000000000000 1700000000000000001
    (initializeRequest "a") (initializeRequest "b").
Proof.
  apply (initialize_sessions_distinct demoServer
           1700000000000000000 1700000000000000001
           (initializeRequest "a") (initializeRequest "b")).
  - eexists. reflexivity.
  - eexists. reflexivity.
  - discriminate.
Defined.

End CalculatorSessions.

(** ** Argument decoding *)

Section Arguments.
Context {R : Runtime}.
Import reflect mcp.





(** Absent and empty arguments decode to the zero struct. *)
Lemma unmarshalInput_no_arguments fs c :
  json.plainStruct fs = true →
  unmarshalInput (StructOf fs c) (json.MarshalMap None)
  = inr (json.zeroStruct fs)
  ∧ unmarshalInput (StructOf fs c) (json.MarshalMap (Some []))
    = inr (json.zeroStruct fs).
Proof. intros Hplain. unfold unmarshalInput. rewrite Hplain. by split. Qed.

(** A rejection of the arguments is always caused by an argument that is
    present: some member names a field whose type cannot store its
    value. *)
Lemma decodeFields_rejects_only_present fs entries s err :
  json.decodeFields fs entries s = inl err →
  ∃ key v i f old, (key, v) ∈ entries ∧ json.fieldIndex fs key = Some i
    ∧ fs !! i = Some f
    ∧ unmarshalValue (FieldType f) v old = inl err.
Proof.
  revert s. induction entries as [|[key v] entries IH]; intros s; [done|].
  simpl. intros H.
  assert (∀ s0, json.decodeFields fs entries s0 = inl err →
    ∃ key0 v0 i f old, (key0, v0) ∈ (key, v) :: entries
      ∧ json.fieldIndex fs key0 = Some i ∧ fs !! i = Some f
      ∧ unmarshalValue (FieldType f) v0 old = inl err) as Hrest.
  { intros s0 Hs0. destruct (IH s0 Hs0) as (k0 & v0 & i & f & old & Hin & ?).
    exists k0, v0, i, f, old. split; [by right|done]. }
  destruct (json.fieldIndex fs key) as [i|] eqn:Hidx; [|by eauto].
  destruct (fs !! i) as [f|] eqn:Hf; [|by eauto].
  destruct (s !! i) as [old|] eqn:Hold; [|by eauto].
  destruct (unmarshalValue (FieldType f) v old) as [e|new] eqn:Hnew;
    [|by eauto].
  injection H as <-.
  exists key, v, i, f, old. split; [by left|done].
Qed.


End Arguments.

Section CalculatorArguments.
Import reflect mcp example.


(** With only [b] given, the add handler is called with [a] at zero. *)
Example add_with_b_only :
  (handleCallTool demoServer newResponseWriter
     (callRequest "calculator/add"
        [("b", JNumber "3"); ("note", JString "x")])).1
  = [ {| invokedTool := "calculator/add";
         invokedArgs :=
           [ArgContext; ArgInput [NumberVal "0"; NumberVal "3"]] |} ].
Proof. reflexivity. Qed.


(** The refusal is the invalid-params error, with status 400. *)
Example out_of_range_extra_argument_refused :
  ∃ w resp e,
    (handleCallTool demoServer newResponseWriter
       (callRequest "calculator/add"
          [("a", JNumber "2"); ("b", JNumber "3");
           ("zzz", JNumber "1e400")])).2 = Return w
    ∧ StatusCode w = Some 400%Z
    ∧ Body w = Envelope resp
    ∧ protocol.Error_ resp = Some e
    ∧ protocol.Code e = (-32602)%Z.
Proof. do 3 eexists. split_and!; reflexivity. Qed.

End CalculatorArguments.

(** * Further properties *)

(** ** The registry *)

Section RegistryInvariant.
Context {R : Runtime}.
Import reflect mcp.

Lemma plainKind_not_Pointer p : plainKind p ≠ Pointer.
Proof. by destruct p. Qed.

Lemma NewServer_registryOK name version caps :
  registryOK (NewServer name version caps).
Proof. intros n t H. simpl in H. by rewrite lookup_empty in H. Qed.

(** A successful registration stores an entry that satisfies [toolOK]. *)
Lemma registerSingleTool_stores_toolOK s reg s' :
  registerSingleTool s reg = Return (s', None) →
  ∃ t, tools s' = <[protocol.Name (Definition_ reg) := t]> (tools s)
    ∧ tools s !! protocol.Name (Definition_ reg) = None
    ∧ toolOK (protocol.Name (Definition_ reg)) t
    ∧ Handler reg = Some (handlerValue t)
    ∧ protocol.Title (tool_Definition t) = protocol.Title (Definition_ reg)
    ∧ protocol.Description (tool_Definition t)
      = protocol.Description (Definition_ reg)
    ∧ sessions s' = sessions s ∧ info s' = info s
    ∧ capabilities s' = capabilities s.
Proof.
  unfold registerSingleTool. intros H.
  destruct (decide (protocol.Name (Definition_ reg) = "")) as [|Hname];
    [done|].
  destruct (Handler reg) as [h|] eqn:Hh; [|done].
  destruct (decide (Kind_of (TypeOf h) ≠ Func)) as [|Hfunc]; [done|].
  apply dec_stable in Hfunc.
  destruct (Ins (TypeOf h) !! 0%nat) as [in0|] eqn:Hin0.
  2:{ apply lookup_ge_None in Hin0. unfold NumIn in H.
      destruct (Ins (TypeOf h)); simpl in *; [done|lia]. }
  destruct (decide (NumIn (TypeOf h)
                    ≠ (if Implements_Context in0 then 2 else 1)%nat))
    as [|Hnum]; [done|].
  apply dec_stable in Hnum.
  destruct (Ins (TypeOf h) !! (NumIn (TypeOf h) - 1)%nat) as [p|] eqn:Hp;
    [|done].
  destruct (decide (Kind_of p ≠ Pointer ∨ Kind_of <$> Elem p ≠ Some Struct))
    as [|Hshape]; [done|].
  destruct (generateSchemaForType p) as [err|sch] eqn:Hsch; [done|].
  simpl in H.
  destruct (tools s !! protocol.Name (Definition_ reg)) eqn:Hfresh; [done|].
  injection H as <-. eexists. split; [reflexivity|]. split; [done|].
  split; [|by split_and!].
  unfold toolOK. simpl. split_and!; try done.
  - destruct p as [k c|e c|fs c|ins c]; simpl in Hshape.
    + destruct Hshape. left. apply plainKind_not_Pointer.
    + destruct e as [k c'|e' c'|fs c'|ins c']; simpl in Hshape;
        try (destruct Hshape; right; by inversion 1).
      * destruct Hshape. right. intros [=Hk]. by destruct k.
      * by eexists _, _, _.
    + destruct Hshape. by left.
    + destruct Hshape. by left.
  - by rewrite Hin0.
Qed.


Lemma registerSingleTool_keeps_registryOK s reg s' e :
  registryOK s → registerSingleTool s reg = Return (s', e) → registryOK s'.
Proof.
  intros Hok Hreg. destruct e as [err|].
  - by rewrite (registerSingleTool_error_unchanged _ _ _ _ Hreg).
  - destruct (registerSingleTool_stores_toolOK _ _ _ Hreg)
      as (t & Htools & _ & HtOK & _).
    intros name t' Hlook. rewrite Htools in Hlook.
    destruct (decide (protocol.Name (Definition_ reg) = name)) as [<-|Hne].
    + rewrite lookup_insert_eq in Hlook. by simplify_eq.
    + rewrite lookup_insert_ne in Hlook by done. by apply Hok.
Qed.

Lemma registerSingleTool_extends s reg s' e :
  registerSingleTool s reg = Return (s', e) →
  tools s ⊆ tools s' ∧ sessions s' = sessions s ∧ info s' = info s
  ∧ capabilities s' = capabilities s.
Proof.
  intros Hreg. destruct e as [err|].
  - by rewrite (registerSingleTool_error_unchanged _ _ _ _ Hreg).
  - destruct (registerSingleTool_stores_toolOK _ _ _ Hreg)
      as (t & Htools & Hfresh & _ & _ & _ & _ & ? & ? & ?).
    split_and!; try done. rewrite Htools. by apply insert_subseteq.
Qed.

Lemma RegisterTools_registryOK s regs s' e :
  registryOK s → RegisterTools s regs = Return (s', e) → registryOK s'.
Proof.
  revert s. induction regs as [|reg regs IH]; intros s Hok Hrun.
  - simpl in Hrun. by simplify_eq.
  - simpl in Hrun.
    destruct (registerSingleTool s reg) as [[s1 [err|]]|] eqn:Hreg;
      [| |done].
    + simplify_eq. by eapply registerSingleTool_keeps_registryOK.
    + eapply IH; [|done]. by eapply registerSingleTool_keeps_registryOK.
Qed.

(** X1: a server made by [NewServer] satisfies the registry invariant,
    and [RegisterTools] keeps it, whether the batch succeeds or fails:
    every entry is stored under the name of its definition, which is not
    empty, with a function handler of one or two parameters according to
    [takesContext], an input type that is a pointer to a struct, and the
    schema generated for it. *)
Theorem registry_invariant :
  (∀ name version caps, registryOK (NewServer name version caps))
  ∧ (∀ s regs s' e,
       registryOK s → RegisterTools s regs = Return (s', e) → registryOK s').
Proof.
  split; [apply NewServer_registryOK|apply RegisterTools_registryOK].
Qed.


Lemma RegisterTools_extends s regs s' e :
  RegisterTools s regs = Return (s', e) → tools s ⊆ tools s'.
Proof.
  revert s. induction regs as [|reg regs IH]; intros s Hrun.
  - simpl in Hrun. by simplify_eq.
  - simpl in Hrun.
    destruct (registerSingleTool s reg) as [[s1 [err|]]|] eqn:Hreg;
      [| |done].
    + simplify_eq. by eapply registerSingleTool_extends.
    + etrans; [by eapply registerSingleTool_extends|by apply IH].
Qed.

(** X3: when [RegisterTools] succeeds, the names of the batch are pairwise
    distinct and were all free before, and afterwards every registration
    of the batch is in the registry under its name, with its own handler
    and an entry that satisfies [toolOK]. *)
Theorem RegisterTools_success s regs s' :
  RegisterTools s regs = Return (s', None) →
  NoDup ((fun reg => protocol.Name (Definition_ reg)) <$> regs)
  ∧ ∀ reg, reg ∈ regs →
      tools s !! protocol.Name (Definition_ reg) = None
      ∧ ∃ t, tools s' !! protocol.Name (Definition_ reg) = Some t
          ∧ Handler reg = Some (handlerValue t)
          ∧ toolOK (protocol.Name (Definition_ reg)) t.
Proof.
  revert s. induction regs as [|reg regs IH]; intros s Hrun.
  { split; [constructor|]. intros reg Hin. by apply elem_of_nil in Hin. }
  simpl in Hrun.
  destruct (registerSingleTool s reg) as [[s1 [err|]]|] eqn:Hreg; [done| |done].
  destruct (registerSingleTool_stores_toolOK _ _ _ Hreg)
    as (t & Htools & Hfresh & HtOK & Hh & _).
  destruct (IH _ Hrun) as (Hnodup & Hall).
  assert (tools s1 !! protocol.Name (Definition_ reg) = Some t) as Hs1.
  { rewrite Htools. apply lookup_insert_eq. }
  split.
  - rewrite fmap_cons. constructor; [|done].
    intros Hin. apply list_elem_of_fmap in Hin as (r & Hr & Hrin).
    destruct (Hall r Hrin) as [Hnone _]. congruence.
  - intros r Hin. apply elem_of_cons in Hin as [->|Hin].
    + split; [done|]. exists t. split_and!; try done.
      by apply (lookup_weaken _ _ _ _ Hs1), (RegisterTools_extends _ regs _ None).
    + destruct (Hall r Hin) as (Hnone & Hsome). split; [|done].
      rewrite Htools in Hnone. by apply lookup_insert_None in Hnone as [? _].
Qed.

(** X4: when [RegisterTools] returns an error, the batch splits into the
    registrations in front of the failing one, the failing one and the
    rest: the ones in front are all registered (the server is the one
    their registration alone gives), the error wraps that of the failing
    registration under its name, and nothing of the rest was looked at. *)
Theorem RegisterTools_failure s regs s' err :
  RegisterTools s regs = Return (s', Some err) →
  ∃ front bad rest cause,
    regs = (front ++ bad :: rest)%list
    ∧ RegisterTools s front = Return (s', None)
    ∧ registerSingleTool s' bad = Return (s', Some cause)
    ∧ err = ErrFailedToRegister (protocol.Name (Definition_ bad)) cause.
Proof.
  revert s. induction regs as [|reg regs IH]; intros s Hrun; [done|].
  simpl in Hrun.
  destruct (registerSingleTool s reg) as [[s1 [cause|]]|] eqn:Hreg; [| |done].
  - simplify_eq.
    pose proof (registerSingleTool_error_unchanged _ _ _ _ Hreg) as ->.
    by exists [], reg, regs, cause.
  - destruct (IH _ Hrun) as (front & bad & rest & cause & -> & Hf & Hb & ->).
    exists (reg :: front), bad, rest, cause. split_and!; try done.
    simpl. by rewrite Hreg.
Qed.

(** X5: registering a batch in two parts is registering it at once: the
    second part is run on the server the first part leaves, unless the
    first part failed or panicked. *)
Theorem RegisterTools_app s regs1 regs2 :
  RegisterTools s (regs1 ++ regs2)
  = match RegisterTools s regs1 with
    | Return (s1, None) => RegisterTools s1 regs2
    | other => other
    end.
Proof.
  revert s. induction regs1 as [|reg regs1 IH]; intros s; [done|].
  simpl. destruct (registerSingleTool s reg) as [[s1 [err|]]|]; auto.
Qed.

End RegistryInvariant.

(** ** The router *)

Section RouterProperties.
Context {R : Runtime}.
Import reflect mcp.

Lemma handleCallTool_calls s w req :
  (handleCallTool s w req).1 = []
  ∨ ∃ inv tool, (handleCallTool s w req).1 = [inv]
      ∧ tools s !! invokedTool inv = Some tool.
Proof.
  unfold handleCallTool.
  repeat case_match; simpl; first [by left | right; by eexists _, _].
Qed.

Lemma handleInitialize_atMostOneSession s now w req :
  atMostOneSession s now (handleInitialize s now w req).1.
Proof.
  unfold handleInitialize. case_match; simpl; [by left|].
  right. by eexists.
Qed.

Lemma handleRequest_server s now w req s' w' :
  (handleRequest s now w req).2 = Return (s', w') →
  atMostOneSession s now s'.
Proof.
  unfold handleRequest. repeat case_decide; simpl.
  - intros [= Heq].
    pose proof (handleInitialize_atMostOneSession s now w req) as H'.
    by rewrite Heq in H'.
  - intros [= <- _]. by left.
  - destruct (handleCallTool s w req) as [calls [w0|]]; simpl; [|done].
    intros [= <- _]. by left.
  - intros [= <- _]. by left.
Qed.

(** X6: whatever the request, the server afterwards is the server before
    with at most one session stored, under the identifier made of the
    clock reading: no request changes the registry, the server info or the
    capabilities, and no request removes a session. *)
Theorem request_changes_at_most_one_session s now w r s' w' :
  (handleMCPRequest s now w r).2 = Return (s', w') →
  atMostOneSession s now s'
  ∧ tools s' = tools s ∧ info s' = info s ∧ capabilities s' = capabilities s
  ∧ dom (sessions s) ⊆ dom (sessions s').
Proof.
  intros Hrun.
  assert (atMostOneSession s now s') as Hone.
  { revert Hrun. unfold handleMCPRequest.
    repeat (case_decide || case_match); simpl;
      try (intros [= <- _]; by left).
    all: apply handleRequest_server. }
  split; [done|].
  destruct Hone as [->|[session ->]]; simpl; [done|].
  split_and!; try done. rewrite dom_insert. set_solver.
Qed.

(** X7: a request makes at most one handler call, only for a POST, and
    only to the handler of a tool that is in the registry under the name
    called. *)
Theorem handler_called_at_most_once s now w r :
  (handleMCPRequest s now w r).1 = []
  ∨ ∃ inv tool, (handleMCPRequest s now w r).1 = [inv]
      ∧ tools s !! invokedTool inv = Some tool
      ∧ Method r = "POST".
Proof.
  unfold handleMCPRequest.
  destruct (decide (Method r = "GET")); [by left|].
  destruct (decide (Method r ≠ "POST")) as [|Hpost]; [by left|].
  apply dec_stable in Hpost.
  repeat case_match; simpl; try (by left).
  unfold handleRequest. repeat case_decide; simpl; try (by left).
  match goal with
  | |- context [handleCallTool ?s ?w ?q] =>
      destruct (handleCallTool_calls s w q) as [Hc|(inv & tool & Hc & Ht)];
      destruct (handleCallTool s w q) as [calls [w0|]]; simpl in *
  end; subst; try (by left); right; by eexists _, _.
Qed.

(** X8: a request that is no POST never reaches the JSON-RPC layer: no
    envelope is written, no handler is called and the server is unchanged;
    on a fresh writer GET is answered with status 200 and no body, every
    other verb with status 405 and a plain text. *)
Theorem non_POST_is_not_dispatched s now r :
  Method r ≠ "POST" →
  ∃ w', handleMCPRequest s now newResponseWriter r = ([], Return (s, w'))
    ∧ ((Method r = "GET" ∧ StatusCode w' = Some 200%Z ∧ Body w' = NoBody)
       ∨ (Method r ≠ "GET" ∧ StatusCode w' = Some 405%Z
          ∧ Body w' = PlainText "Method not allowed")).
Proof.
  intros Hnp. unfold handleMCPRequest.
  destruct (decide (Method r = "GET")) as [Hget|Hget].
  - eexists. split; [reflexivity|]. by left.
  - rewrite decide_True by done.
    eexists. split; [reflexivity|]. by right.
Qed.

(** X9: a request whose method is none of [initialize], [tools/list] and
    [tools/call] is answered with the error [-32601] under its id, status
    404 on a fresh writer, without a handler call or a change of the
    server. *)
Theorem unknown_method_is_not_found s now w req :
  protocol.Request_Method req ≠ "initialize" →
  protocol.Request_Method req ≠ "tools/list" →
  protocol.Request_Method req ≠ "tools/call" →
  ∃ w', handleRequest s now w req = ([], Return (s, w'))
    ∧ isErrorEnvelope (Body w') (protocol.Request_ID req) (-32601)%Z
    ∧ (StatusCode w = None → StatusCode w' = Some 404%Z).
Proof.
  intros H1 H2 H3. unfold handleRequest.
  rewrite !decide_False by done.
  eexists. split; [reflexivity|]. split.
  - apply writeErrorResponse_Body.
  - intros Hw. by rewrite writeErrorResponse_StatusCode.
Qed.

(** X10: an [initialize] whose parameters do not decode is answered with
    the error [-32602] (status 400 on a fresh writer); no session is
    stored and no session identifier is announced. *)
Theorem initialize_invalid_params s now w req err :
  json.Unmarshal json.InitializeRequestFields (protocol.Request_Params req)
    json.zeroInitializeRequest = inl err →
  ∃ w', handleInitialize s now w req = (s, w')
    ∧ isErrorEnvelope (Body w') (protocol.Request_ID req) (-32602)%Z
    ∧ sessionHeader w' = sessionHeader w
    ∧ (StatusCode w = None → StatusCode w' = Some 400%Z).
Proof.
  intros Hdec. unfold handleInitialize. rewrite Hdec.
  eexists. split; [reflexivity|]. split_and!.
  - apply writeErrorResponse_Body.
  - unfold sessionHeader. simpl. by rewrite lookup_insert_ne.
  - intros Hw. by rewrite writeErrorResponse_StatusCode.
Qed.

(** X11: a successful [initialize] answers with the protocol version the
    client sent, unchanged, and the server's info and capabilities;
    it stores the client's capabilities under the announced session
    identifier and leaves every other session as it was. *)
Theorem initialize_result s now w req initParams :
  json.Unmarshal json.InitializeRequestFields (protocol.Request_Params req)
    json.zeroInitializeRequest = inr initParams →
  let '(s', w') := handleInitialize s now w req in
  isResultEnvelope (Body w') (protocol.Request_ID req)
    (protocol.OfInitializeResult
       {| protocol.ProtocolVersion :=
            protocol.InitializeRequest_ProtocolVersion initParams;
          protocol.ServerInfo := info s;
          protocol.Capabilities := capabilities s;
          protocol.Instructions := "" |})
  ∧ sessionHeader w' = Some (sessionIDOf now)
  ∧ sessions s' !! sessionIDOf now
    = Some {| ClientCapabilities :=
                protocol.InitializeRequest_Capabilities initParams |}
  ∧ (∀ id, id ≠ sessionIDOf now → sessions s' !! id = sessions s !! id)
  ∧ (StatusCode w = None → StatusCode w' = Some 200%Z).
Proof.
  intros Hdec. unfold handleInitialize. rewrite Hdec.
  split_and!.
  - reflexivity.
  - apply sessionHeader_writeSuccessResponse.
  - simpl. apply lookup_insert_eq.
  - intros id Hne. simpl. by rewrite lookup_insert_ne.
  - intros Hw. simpl. by rewrite Hw.
Qed.

End RouterProperties.

Section RouterStatus.
Context {R : Runtime}.
Import reflect mcp.

Lemma statusMatches_error w id code message data :
  StatusCode w = None →
  code = (-32700)%Z ∨ code = (-32602)%Z ∨ code = (-32601)%Z →
  statusMatches (writeErrorResponse w id code message data).
Proof.
  intros Hw Hcode. unfold statusMatches.
  rewrite writeErrorResponse_StatusCode by done. simpl.
  destruct Hcode as [-> | [-> | ->]]; simpl; [left|left|right]; split; auto.
Qed.

Lemma statusMatches_success w id result :
  StatusCode w = None → statusMatches (writeSuccessResponse w id result).
Proof.
  intros Hw. unfold statusMatches. simpl. rewrite Hw. split; [by eexists|done].
Qed.

Lemma handleCallTool_statusMatches s w req w' :
  StatusCode w = None →
  (handleCallTool s w req).2 = Return w' → statusMatches w'.
Proof.
  intros Hw. unfold handleCallTool.
  repeat case_match; simpl; try done; intros [= <-];
    first [ apply statusMatches_error; [done|by auto]
          | by apply statusMatches_success ].
Qed.

Lemma handleRequest_statusMatches s now w req s' w' :
  StatusCode w = None →
  (handleRequest s now w req).2 = Return (s', w') → statusMatches w'.
Proof.
  intros Hw. unfold handleRequest. repeat case_decide; simpl.
  - unfold handleInitialize. case_match; intros [= ? <-].
    + apply statusMatches_error; [done|by auto].
    + by apply statusMatches_success.
  - intros [= ? <-]. by apply statusMatches_success.
  - pose proof (handleCallTool_statusMatches s w req) as Hc.
    destruct (handleCallTool s w req) as [calls [w0|]]; simpl in *; [|done].
    intros [= ? <-]. by apply Hc.
  - intros [= ? <-]. apply statusMatches_error; [done|by auto].
Qed.

(** X12: on a fresh writer the HTTP status always goes with what the
    router wrote: 200 with a result envelope; 400 with an error envelope
    of code [-32700] or [-32602] and 404 with one of code [-32601], and no
    other error code is ever sent; 405 or 500 with a plain text; 200, 202
    or 400 when nothing is written. *)
Theorem status_goes_with_the_response s now r :
  match (handleMCPRequest s now newResponseWriter r).2 with
  | Return (_, w') => statusMatches w'
  | Panic => True
  end.
Proof.
  unfold handleMCPRequest.
  repeat (case_decide || case_match); simplify_eq/=; try done;
    try (by (unfold statusMatches; simpl; auto)).
  all: try (rewrite handleNotification_status; unfold statusMatches;
            simpl; by auto).
  all: eapply (handleRequest_statusMatches _ _ newResponseWriter);
    [reflexivity|eassumption].
Qed.


(** X14: a handler that returns nothing but a nil error is answered with
    a success envelope whose result has [isError] unset and the fixed text
    ["Operation completed successfully."]. *)
Theorem handler_without_value_completes
  s w req callParams tool elemType c inputValue :
  json.Unmarshal json.CallToolRequestFields (protocol.Request_Params req)
    json.zeroCallToolRequest = inr callParams →
  tools s !! protocol.CallToolRequest_Name callParams = Some tool →
  inputType tool = PtrTo elemType c →
  unmarshalInput elemType (json.MarshalMap (protocol.Arguments callParams))
  = inr inputValue →
  Call (handlerValue tool)
    ((if takesContext tool then [ArgContext] else [])
     ++ [ArgInput inputValue])%list = Return [NilValue] →
  ∃ w', (handleCallTool s w req).2 = Return w'
    ∧ isToolResultEnvelope (Body w') (protocol.Request_ID req)
        "Operation completed successfully." false.
Proof.
  intros Hdec Htool Hty Hin Hres.
  pose proof (handleCallTool_invokes s w req _ _ _ _ _ Hdec Htool Hty Hin)
    as Hcall.
  simpl in Hcall. rewrite Hres in Hcall. rewrite Hcall. simpl.
  eexists. split; reflexivity.
Qed.

(** X15: a POST body that is JSON but no object: [null] is taken for a
    notification and answered with status 202 and no body; a boolean, a
    number, a string or an array is answered with the parse error
    [-32700] and status 400.  In both cases no handler is called and the
    server is unchanged. *)
Theorem POST_of_a_non_object s now r v :
  Method r = "POST" → http_Body r = JSONText v →
  (∀ members, v ≠ JObject members) →
  ∃ w', handleMCPRequest s now newResponseWriter r = ([], Return (s, w'))
    ∧ match v with
      | JNull => Body w' = NoBody ∧ StatusCode w' = Some 202%Z
      | _ => isErrorEnvelope (Body w') protocol.IDNil (-32700)%Z
             ∧ StatusCode w' = Some 400%Z
      end.
Proof.
  intros Hpost Hbody Hobj. unfold handleMCPRequest.
  rewrite Hpost, decide_False by done.
  rewrite decide_False by (intros Hne; by apply Hne).
  rewrite Hbody.
  destruct v; try (by destruct (Hobj members)).
  - simpl. eexists. split; [reflexivity|].
    by rewrite handleNotification_status.
  - simpl. eexists. split; [reflexivity|]. split; [|done].
    apply writeErrorResponse_Body.
  - simpl. eexists. split; [reflexivity|]. split; [|done].
    apply writeErrorResponse_Body.
  - simpl. eexists. split; [reflexivity|]. split; [|done].
    apply writeErrorResponse_Body.
  - simpl. eexists. split; [reflexivity|]. split; [|done].
    apply writeErrorResponse_Body.
Qed.

End RouterStatus.

(** ** Registering and then calling or listing *)

Section RegisterThenUse.
Context {R : Runtime}.
Import reflect mcp.

(** X16: a tool that was just registered is dispatched to its own
    handler: a [tools/call] that names it is either refused with the
    error [-32602] because the arguments do not decode, or reaches
    [handlerValue.Call] of the registered handler once, passing as many
    arguments as it has parameters; when that call panics (as it does for
    a handler whose first parameter is a concrete context type, to which
    [context.Background()] is not assignable) the request panics, and when
    it returns with a non-nil error, the error becomes a tool result with
    [isError = true] and the error's message. *)
Theorem registered_tool_is_called s reg s' h w req callParams :
  registerSingleTool s reg = Return (s', None) →
  Handler reg = Some h →
  json.Unmarshal json.CallToolRequestFields (protocol.Request_Params req)
    json.zeroCallToolRequest = inr callParams →
  protocol.CallToolRequest_Name callParams = protocol.Name (Definition_ reg) →
  ((handleCallTool s' w req).1 = []
   ∧ ∃ w', (handleCallTool s' w req).2 = Return w'
       ∧ isErrorEnvelope (Body w') (protocol.Request_ID req) (-32602)%Z)
  ∨ (∃ args,
       (handleCallTool s' w req).1
       = [ {| invokedTool := protocol.Name (Definition_ reg);
              invokedArgs := args |} ]
       ∧ List.length args = NumIn (TypeOf h)
       ∧ (Call h args = Panic → (handleCallTool s' w req).2 = Panic)
       ∧ ∀ results msg, Call h args = Return results →
           last results = Some (ErrorValue msg) →
           ∃ w', (handleCallTool s' w req).2 = Return w'
             ∧ isToolResultEnvelope (Body w') (protocol.Request_ID req)
                 msg true).
Proof.
  intros Hreg Hh Hdec Hname.
  destruct (registerSingleTool_stores_toolOK _ _ _ Hreg)
    as (t & Htools & _ & HtOK & Hh' & _).
  assert (h = handlerValue t) as -> by congruence.
  destruct HtOK as (_ & _ & _ & Hnum & _ & (fs & c & c' & Hty) & _).
  assert (tools s' !! protocol.CallToolRequest_Name callParams = Some t)
    as Htool.
  { rewrite Hname, Htools. apply lookup_insert_eq. }
  destruct (unmarshalInput (StructOf fs c)
              (json.MarshalMap (protocol.Arguments callParams)))
    as [err|inputValue] eqn:Hin.
  - left. unfold handleCallTool. rewrite Hdec, Htool, Hty. cbn [Elem].
    rewrite Hin. split; [done|].
    eexists. split; [reflexivity|]. apply writeErrorResponse_Body.
  - right.
    pose proof (handleCallTool_invokes s' w req _ _ _ _ _ Hdec Htool Hty Hin)
      as Hcall. simpl in Hcall.
    eexists. rewrite Hcall, Hname. simpl. split; [reflexivity|]. split_and!.
    + rewrite Hnum. by destruct (takesContext t).
    + by intros ->.
    + intros results msg -> ->. eexists. split; reflexivity.
Qed.

(** X17: [tools/list] answers with a result envelope (status 200 on a
    fresh writer) that lists the definition of every registered tool and
    nothing else, as many entries as the registry has; on a server that
    satisfies the registry invariant no name is listed twice. *)
Theorem tools_list_is_the_registry s w req :
  ∃ listed,
    isResultEnvelope (Body (handleListTools s w req))
      (protocol.Request_ID req)
      (protocol.OfListToolsResult
         {| protocol.ListToolsResult_Tools := listed |})
    ∧ List.length listed = size (tools s)
    ∧ (∀ d, d ∈ listed ↔
            ∃ name t, tools s !! name = Some t ∧ tool_Definition t = d)
    ∧ (registryOK s → NoDup (protocol.Name <$> listed))
    ∧ (StatusCode w = None →
       StatusCode (handleListTools s w req) = Some 200%Z).
Proof.
  eexists. split; [reflexivity|]. split_and!.
  - by rewrite length_fmap, length_map_to_list.
  - intros d. rewrite list_elem_of_fmap. split.
    + intros ([name t] & -> & Hin). apply elem_of_map_to_list in Hin.
      by exists name, t.
    + intros (name & t & Hlook & <-). exists (name, t).
      split; [done|]. by apply elem_of_map_to_list.
  - intros Hok.
    assert (protocol.Name <$>
              ((fun kv : string * internalRegisteredTool =>
                  tool_Definition kv.2) <$> map_to_list (tools s))
            = (map_to_list (tools s)).*1) as ->.
    { rewrite <- list_fmap_compose. apply list_fmap_ext.
      intros i [name t] Hin. simpl.
      apply list_elem_of_lookup_2, elem_of_map_to_list in Hin.
      by destruct (Hok _ _ Hin) as [? _]. }
    apply NoDup_fst_map_to_list.
  - intros Hw. unfold handleListTools. simpl. by rewrite Hw.
Qed.

End RegisterThenUse.

(** ** The schema generator on any struct *)

Section SchemaGeneral.
Context {R : Runtime}.
Import reflect mcp.

Lemma requiredName_Some f key :
  requiredName f = Some key ↔
  ¬ (Get (Tag f) "json" = "" ∨ Get (Tag f) "json" = "-")
  ∧ json.beforeComma (Get (Tag f) "json") = key.
Proof.
  unfold requiredName. case_decide; split.
  - intros [= <-]. split; [tauto|done].
  - intros [_ <-]. done.
  - done.
  - intros [Hn _]. destruct Hn.
    destruct (decide (Get (Tag f) "json" = "")); [by left|].
    destruct (decide (Get (Tag f) "json" = "-")); [by right|]. tauto.
Qed.

Lemma describedFrom_setDescription fs f key p p' :
  f ∈ fs → requiredName f = Some key → Get (Tag f) "description" ≠ "" →
  describedFrom fs key p p' →
  describedFrom fs key p
    (jsonschema.setDescription (Get (Tag f) "description") p').
Proof.
  intros Hin Hname Hdesc [->|(f' & _ & _ & _ & ->)];
    right; exists f; by split_and!.
Qed.

Lemma PropertiesUpdate_generatedFrom fs f key ps0 ps :
  f ∈ fs → requiredName f = Some key → Get (Tag f) "description" ≠ "" →
  Forall2 (generatedFrom fs) ps0 ps →
  Forall2 (generatedFrom fs) ps0
    (jsonschema.PropertiesUpdate ps key
       (jsonschema.setDescription (Get (Tag f) "description"))).
Proof.
  intros Hin Hname Hdesc Hall.
  induction Hall as [|[k0 p0] [k p] ps0 ps [Hk Hd] Hall IH]; simpl;
    [constructor|].
  simpl in Hk, Hd. subst k0. case_decide as Hkey.
  - subst k. constructor; [|done]. split; [done|]. simpl.
    by eapply describedFrom_setDescription.
  - constructor; [by split|done].
Qed.

Lemma addDescription_generatedFrom fs f ps0 ps :
  f ∈ fs →
  Forall2 (generatedFrom fs) ps0 ps →
  Forall2 (generatedFrom fs) ps0 (addDescription ps f).
Proof.
  intros Hin Hall. unfold addDescription.
  case_decide as Htag; [done|].
  destruct (jsonschema.PropertiesGet ps _); [|done].
  case_decide as Hdesc; [|done].
  eapply PropertiesUpdate_generatedFrom; try done.
  by apply requiredName_Some.
Qed.

Lemma fold_addDescription_generatedFrom fs fs' ps0 ps :
  fs' ⊆ fs →
  Forall2 (generatedFrom fs) ps0 ps →
  Forall2 (generatedFrom fs) ps0 (fold_left addDescription fs' ps).
Proof.
  revert ps. induction fs' as [|f fs' IH]; intros ps Hsub Hall; [done|].
  simpl. apply IH; [set_solver|].
  apply addDescription_generatedFrom; [set_solver|done].
Qed.

Lemma fold_addRequired fs required :
  fold_left addRequired fs required = (required ++ omap requiredName fs)%list.
Proof.
  revert required. induction fs as [|f fs IH]; intros required; simpl.
  { by rewrite app_nil_r. }
  rewrite IH. unfold addRequired, requiredName.
  case_decide; simpl; [by rewrite <- app_assoc|done].
Qed.

(** X18: on a struct type whose reflected schema has properties, the
    generator neither adds nor removes nor reorders a property and leaves
    the type and description of the schema alone; each property is the
    reflected one, or the reflected one with the description tag of a
    field whose [json] tag names it. *)
Theorem generateSchemaForType_keeps_properties fs c c' ps :
  jsonschema.Properties (Reflect (StructOf fs c)) = Some ps →
  ∃ schema ps',
    generateSchemaForType (PtrTo (StructOf fs c) c') = inr (Some schema)
    ∧ jsonschema.Properties schema = Some ps'
    ∧ jsonschema.SchemaType schema
      = jsonschema.SchemaType (Reflect (StructOf fs c))
    ∧ jsonschema.Description schema
      = jsonschema.Description (Reflect (StructOf fs c))
    ∧ ps'.*1 = ps.*1
    ∧ Forall2 (fun p p' => describedFrom fs p.1 p.2 p'.2) ps ps'.
Proof.
  intros Hps. unfold generateSchemaForType. simpl. rewrite Hps. simpl.
  eexists _, _. split; [reflexivity|]. simpl. split_and!; try reflexivity.
  - assert (Forall2 (generatedFrom fs) ps
              (fold_left addDescription fs ps)) as Hall.
    { apply fold_addDescription_generatedFrom; [done|].
      apply Forall_Forall2_diag, Forall_forall. intros p _.
      split; [done|by left]. }
    clear Hps. induction Hall as [|p p' ps ps' [Hk _] _ IH]; [done|].
    rewrite !fmap_cons. by rewrite Hk, IH.
  - eapply Forall2_impl.
    + apply fold_addDescription_generatedFrom; [done|].
      apply Forall_Forall2_diag, Forall_forall. intros p _.
      split; [done|by left].
    + by intros p p' [_ Hd].
Qed.

(** X19: the [required] list of the generated schema is the one of the
    reflector followed by the name part of the [json] tag of every field
    whose tag is neither empty nor ["-"], in field order, once per field
    (names the reflector already listed are listed again); when the
    reflector leaves the properties nil, the schema is returned as
    reflected. *)
Theorem generateSchemaForType_required fs c c' :
  ∃ schema,
    generateSchemaForType (PtrTo (StructOf fs c) c') = inr (Some schema)
    ∧ match jsonschema.Properties (Reflect (StructOf fs c)) with
      | Some _ =>
          jsonschema.Required schema
          = (jsonschema.Required (Reflect (StructOf fs c))
             ++ omap requiredName fs)%list
      | None => schema = Reflect (StructOf fs c)
      end.
Proof.
  unfold generateSchemaForType. simpl.
  destruct (jsonschema.Properties (Reflect (StructOf fs c))) as [ps|] eqn:Hps;
    simpl.
  - eexists. split; [reflexivity|]. simpl. apply fold_addRequired.
  - eexists. split; reflexivity.
Qed.

End SchemaGeneral.

(** ** Request identifiers *)

Section RequestIDs.
Import protocol.


End RequestIDs.

(** ** The log formatter *)

Section Logger.
Import logger.

Lemma string_length_app (s1 s2 : string) :
  String.length (s1 ++ s2) = (String.length s1 + String.length s2)%nat.
Proof. induction s1 as [|a s1 IH]; simpl; [done|]. by rewrite IH. Qed.

Lemma string_app_assoc (s1 s2 s3 : string) :
  (s1 ++ s2) ++ s3 = s1 ++ s2 ++ s3.
Proof.
  induction s1 as [|a s1 IH]; [done|].
  change (String a ((s1 ++ s2) ++ s3) = String a (s1 ++ s2 ++ s3)).
  by rewrite IH.
Qed.

(** X21: a formatted entry never fails, is the prefix followed by the
    message and a newline, and its prefix is as long as the timestamp plus
    20 characters for every level but the warning level, whose name is too
    long for the five-character column and takes 22: messages of entries
    with equally long timestamps start in the same column unless one of
    them is a warning. *)
Theorem Format_aligns_messages (entry : Entry) :
  (Format entry).2 = None
  ∧ (Format entry).1 = prefixOf entry ++ Message entry ++ newline
  ∧ String.length (prefixOf entry)
    = (String.length (TimeFormatted entry)
       + match EntryLevel entry with WarnLevel => 22 | _ => 20 end)%nat.
Proof.
  split; [done|]. split.
  - unfold Format, prefixOf. simpl.
    by rewrite !string_app_assoc.
  - unfold prefixOf. rewrite !string_length_app.
    destruct (EntryLevel entry); simpl; lia.
Qed.

End Logger.

(** ** Headers and repeated sessions *)

Section MoreEdges.
Context {R : Runtime}.
Import reflect mcp.

Lemma writeErrorResponse_Header w id code message data :
  Header (writeErrorResponse w id code message data)
  = <["Content-Type" := "application/json"]> (Header w).
Proof. unfold writeErrorResponse. by repeat case_decide. Qed.

Lemma headersMatch_error now s w id code message data :
  sessionHeader w = None →
  headersMatch now s (writeErrorResponse w id code message data).
Proof.
  intros Hw. split.
  - intros _ _. rewrite writeErrorResponse_Header. apply lookup_insert_eq.
  - intros sid. unfold sessionHeader.
    rewrite writeErrorResponse_Header, lookup_insert_ne by done.
    unfold sessionHeader in Hw. by rewrite Hw.
Qed.

Lemma headersMatch_success now s w id result :
  sessionHeader w = None →
  headersMatch now s (writeSuccessResponse w id result).
Proof.
  intros Hw. split.
  - intros _ _. simpl. apply lookup_insert_eq.
  - intros sid. unfold sessionHeader. simpl.
    rewrite lookup_insert_ne by done.
    unfold sessionHeader in Hw. by rewrite Hw.
Qed.

Lemma headersMatch_handleCallTool s now w req w' :
  sessionHeader w = None →
  (handleCallTool s w req).2 = Return w' → headersMatch now s w'.
Proof.
  intros Hw. unfold handleCallTool.
  repeat case_match; simpl; try done; intros [= <-];
    first [by apply headersMatch_error | by apply headersMatch_success].
Qed.

Lemma headersMatch_handleRequest s now w req s' w' :
  sessionHeader w = None →
  (handleRequest s now w req).2 = Return (s', w') →
  headersMatch now s' w'.
Proof.
  intros Hw. unfold handleRequest. repeat case_decide; simpl.
  - unfold handleInitialize. case_match; intros [= <- <-].
    + by apply headersMatch_error.
    + split.
      * intros _ _. simpl. apply lookup_insert_eq.
      * intros sid. rewrite sessionHeader_writeSuccessResponse.
        intros [= <-]. split; [done|]. simpl.
        rewrite lookup_insert_eq. by eexists.
  - intros [= <- <-]. by apply headersMatch_success.
  - pose proof (headersMatch_handleCallTool s now w req) as Hc.
    destruct (handleCallTool s w req) as [calls [w0|]]; simpl in *; [|done].
    intros [= <- <-]. by apply Hc.
  - intros [= <- <-]. by apply headersMatch_error.
Qed.

(** X23: on a fresh writer, every envelope the router writes is sent with
    the content type [application/json], and a session identifier is
    announced in the [Mcp-Session-Id] header only when it is the one made
    of the clock reading and a session is stored under it. *)
Theorem headers_go_with_the_response s now r :
  match (handleMCPRequest s now newResponseWriter r).2 with
  | Return (s', w') => headersMatch now s' w'
  | Panic => True
  end.
Proof.
  assert (∀ s0 code, headersMatch now s0 (WriteHeader newResponseWriter code))
    as Hbare.
  { intros s0 code. split; [done|]. intros sid. unfold sessionHeader. simpl.
    by rewrite lookup_empty. }
  assert (∀ s0 msg code,
            headersMatch now s0 (http_Error newResponseWriter msg code))
    as Hplain.
  { intros s0 msg code. split; [done|]. intros sid.
    unfold sessionHeader. simpl.
    rewrite !lookup_insert_ne by done. by rewrite lookup_empty. }
  unfold handleMCPRequest.
  repeat (case_decide || case_match); simplify_eq/=; try done;
    try (by apply Hbare); try (by apply Hplain);
    try (by apply headersMatch_error).
  all: try (rewrite handleNotification_status; by apply Hbare).
  all: eapply (headersMatch_handleRequest _ _ newResponseWriter);
    [reflexivity|eassumption].
Qed.

(** X24: two successful [initialize] calls that read the same clock value
    share one session identifier, and the second call replaces the session
    of the first: afterwards the store is the one before with that single
    identifier mapped to the capabilities of the second client. *)
Theorem initialize_same_clock_overwrites s now w1 w2 req1 req2 p1 p2 :
  json.Unmarshal json.InitializeRequestFields (protocol.Request_Params req1)
    json.zeroInitializeRequest = inr p1 →
  json.Unmarshal json.InitializeRequestFields (protocol.Request_Params req2)
    json.zeroInitializeRequest = inr p2 →
  let s1 := (handleInitialize s now w1 req1).1 in
  let '(s2, w2') := handleInitialize s1 now w2 req2 in
  sessionHeader (handleInitialize s now w1 req1).2 = sessionHeader w2'
  ∧ sessions s2
    = <[sessionIDOf now :=
          {| ClientCapabilities :=
               protocol.InitializeRequest_Capabilities p2 |}]> (sessions s).
Proof.
  intros H1 H2. unfold handleInitialize. rewrite H1. simpl. rewrite H2.
  split.
  - by rewrite !sessionHeader_writeSuccessResponse.
  - simpl. apply insert_insert_eq.
Qed.

End MoreEdges.

(** ** The further properties on the calculator server *)

Section CalculatorFurther.
Import reflect mcp example fixtures.


Lemma registry_invariant_witness : registryOK demoServer.
Proof.
  apply (proj2 registry_invariant server
           [addTool; subtractTool; divideTool] demoServer None).
  - apply (proj1 registry_invariant).
  - reflexivity.
Defined.


Lemma RegisterTools_success_witness :
  NoDup ((fun reg => protocol.Name (Definition_ reg)) <$> toolsToRegister)
  ∧ ∀ reg, reg ∈ toolsToRegister →
      tools server !! protocol.Name (Definition_ reg) = None
      ∧ ∃ t, tools (registered (registered server addTool) subtractTool)
               !! protocol.Name (Definition_ reg) = Some t
          ∧ Handler reg = Some (handlerValue t)
          ∧ toolOK (protocol.Name (Definition_ reg)) t.
Proof.
  apply (RegisterTools_success server toolsToRegister
           (registered (registered server addTool) subtractTool)).
  reflexivity.
Defined.

Lemma RegisterTools_failure_witness :
  ∃ front bad rest cause,
    fiveTools = (front ++ bad :: rest)%list
    ∧ RegisterTools server front
      = Return (registered (registered server addTool) subtractTool, None)
    ∧ registerSingleTool
        (registered (registered server addTool) subtractTool) bad
      = Return (registered (registered server addTool) subtractTool,
                Some cause)
    ∧ ErrFailedToRegister "calculator/multiply" (ErrParamType MultiplyParams)
      = ErrFailedToRegister (protocol.Name (Definition_ bad)) cause.
Proof.
  apply (RegisterTools_failure server fiveTools
           (registered (registered server addTool) subtractTool)
           (ErrFailedToRegister "calculator/multiply"
              (ErrParamType MultiplyParams))).
  reflexivity.
Defined.

Lemma request_changes_at_most_one_session_witness :
  atMostOneSession demoServer 1700000000000000000
    (serverAfter demoServer 1700000000000000000 initializePost)
  ∧ tools (serverAfter demoServer 1700000000000000000 initializePost)
    = tools demoServer
  ∧ info (serverAfter demoServer 1700000000000000000 initializePost)
    = info demoServer
  ∧ capabilities (serverAfter demoServer 1700000000000000000 initializePost)
    = capabilities demoServer
  ∧ dom (sessions demoServer)
    ⊆ dom (sessions
             (serverAfter demoServer 1700000000000000000 initializePost)).
Proof.
  apply (request_changes_at_most_one_session demoServer 1700000000000000000
           newResponseWriter initializePost
           (serverAfter demoServer 1700000000000000000 initializePost)
           (writerAfter demoServer 1700000000000000000 initializePost)).
  reflexivity.
Defined.

Lemma non_POST_is_not_dispatched_witness :
  ∃ w', handleMCPRequest demoServer 0 newResponseWriter deleteRequest
        = ([], Return (demoServer, w'))
    ∧ ((Method deleteRequest = "GET" ∧ StatusCode w' = Some 200%Z
        ∧ Body w' = NoBody)
       ∨ (Method deleteRequest ≠ "GET" ∧ StatusCode w' = Some 405%Z
          ∧ Body w' = PlainText "Method not allowed")).
Proof.
  apply (non_POST_is_not_dispatched demoServer 0 deleteRequest).
  discriminate.
Defined.

Lemma unknown_method_is_not_found_witness :
  ∃ w', handleRequest demoServer 0 newResponseWriter resourcesListRequest
        = ([], Return (demoServer, w'))
    ∧ isErrorEnvelope (Body w') (protocol.IDNumber "7") (-32601)%Z
    ∧ (StatusCode newResponseWriter = None → StatusCode w' = Some 404%Z).
Proof.
  apply (unknown_method_is_not_found demoServer 0 newResponseWriter
           resourcesListRequest); discriminate.
Defined.

Lemma initialize_invalid_params_witness :
  ∃ w', handleInitialize demoServer 0 newResponseWriter
          initializeWithoutParams = (demoServer, w')
    ∧ isErrorEnvelope (Body w') (protocol.IDNumber "8") (-32602)%Z
    ∧ sessionHeader w' = sessionHeader newResponseWriter
    ∧ (StatusCode newResponseWriter = None → StatusCode w' = Some 400%Z).
Proof.
  apply (initialize_invalid_params demoServer 0 newResponseWriter
           initializeWithoutParams
           (SyntaxError "unexpected end of JSON input")).
  reflexivity.
Defined.

Lemma initialize_result_witness :
  let '(s', w') :=
    handleInitialize demoServer 5 newResponseWriter (initializeRequest "a") in
  isResultEnvelope (Body w') (protocol.IDString "a")
    (protocol.OfInitializeResult
       {| protocol.ProtocolVersion := "2025-06-18";
          protocol.ServerInfo := info demoServer;
          protocol.Capabilities := capabilities demoServer;
          protocol.Instructions := "" |})
  ∧ sessionHeader w' = Some (sessionIDOf 5)
  ∧ sessions s' !! sessionIDOf 5
    = Some {| ClientCapabilities :=
                protocol.InitializeRequest_Capabilities initializeParams |}
  ∧ (∀ id, id ≠ sessionIDOf 5 → sessions s' !! id = sessions demoServer !! id)
  ∧ (StatusCode newResponseWriter = None → StatusCode w' = Some 200%Z).
Proof.
  apply (initialize_result demoServer 5 newResponseWriter
           (initializeRequest "a") initializeParams).
  reflexivity.
Defined.


Lemma handler_without_value_completes_witness :
  ∃ w', (handleCallTool resetServer newResponseWriter
           (callRequest "calculator/reset" [])).2 = Return w'
    ∧ isToolResultEnvelope (Body w') (protocol.IDNumber "1")
        "Operation completed successfully." false.
Proof.
  apply (handler_without_value_completes resetServer newResponseWriter
           (callRequest "calculator/reset" [])
           {| protocol.CallToolRequest_Name := "calculator/reset";
              protocol.Arguments := Some [] |}
           (registeredTool resetServer "calculator/reset")
           AddParams false [NumberVal "0"; NumberVal "0"]);
    reflexivity.
Defined.

Lemma POST_of_a_non_object_witness :
  ∃ w', handleMCPRequest demoServer 0 newResponseWriter arrayPost
        = ([], Return (demoServer, w'))
    ∧ isErrorEnvelope (Body w') protocol.IDNil (-32700)%Z
    ∧ StatusCode w' = Some 400%Z.
Proof.
  apply (POST_of_a_non_object demoServer 0 arrayPost (JArray [])).
  - reflexivity.
  - reflexivity.
  - discriminate.
Defined.

Lemma registered_tool_is_called_witness :
  ((handleCallTool (registered server addTool) newResponseWriter
      (callRequest "calculator/add" [("a", JNumber "2"); ("b", JNumber "3")])).1
   = []
   ∧ ∃ w', (handleCallTool (registered server addTool) newResponseWriter
              (callRequest "calculator/add"
                 [("a", JNumber "2"); ("b", JNumber "3")])).2 = Return w'
       ∧ isErrorEnvelope (Body w') (protocol.IDNumber "1") (-32602)%Z)
  ∨ (∃ args,
       (handleCallTool (registered server addTool) newResponseWriter
          (callRequest "calculator/add"
             [("a", JNumber "2"); ("b", JNumber "3")])).1
       = [ {| invokedTool := "calculator/add"; invokedArgs := args |} ]
       ∧ List.length args = NumIn (TypeOf (binaryHandler AddParams "sum"))
       ∧ (Call (binaryHandler AddParams "sum") args = Panic →
          (handleCallTool (registered server addTool) newResponseWriter
             (callRequest "calculator/add"
                [("a", JNumber "2"); ("b", JNumber "3")])).2 = Panic)
       ∧ ∀ results msg,
           Call (binaryHandler AddParams "sum") args = Return results →
           last results = Some (ErrorValue msg) →
           ∃ w', (handleCallTool (registered server addTool)
                    newResponseWriter
                    (callRequest "calculator/add"
                       [("a", JNumber "2"); ("b", JNumber "3")])).2
                 = Return w'
             ∧ isToolResultEnvelope (Body w') (protocol.IDNumber "1")
                 msg true).
Proof.
  apply (registered_tool_is_called server addTool (registered server addTool)
           (binaryHandler AddParams "sum") newResponseWriter
           (callRequest "calculator/add"
              [("a", JNumber "2"); ("b", JNumber "3")])
           {| protocol.CallToolRequest_Name := "calculator/add";
              protocol.Arguments :=
                Some [("a", JNumber "2"); ("b", JNumber "3")] |});
    reflexivity.
Defined.

Lemma generateSchemaForType_keeps_properties_witness :
  ∃ schema ps',
    generateSchemaForType (PtrTo AddParams false) = inr (Some schema)
    ∧ jsonschema.Properties schema = Some ps'
    ∧ jsonschema.SchemaType schema = jsonschema.SchemaType (Reflect AddParams)
    ∧ jsonschema.Description schema
      = jsonschema.Description (Reflect AddParams)
    ∧ ps'.*1 = addParamsProperties.*1
    ∧ Forall2 (fun p p' => describedFrom (Fields AddParams) p.1 p.2 p'.2)
        addParamsProperties ps'.
Proof.
  apply (generateSchemaForType_keeps_properties (Fields AddParams)
           false false addParamsProperties).
  reflexivity.
Defined.


Lemma initialize_same_clock_overwrites_witness :
  let s1 :=
    (handleInitialize demoServer 5 newResponseWriter
       (initializeRequest "a")).1 in
  let '(s2, w2') :=
    handleInitialize s1 5 newResponseWriter (initializeRequest "b") in
  sessionHeader
    (handleInitialize demoServer 5 newResponseWriter (initializeRequest "a")).2
  = sessionHeader w2'
  ∧ sessions s2
    = <[sessionIDOf 5 :=
          {| ClientCapabilities :=
               protocol.InitializeRequest_Capabilities initializeParams |}]>
        (sessions demoServer).
Proof.
  apply (initialize_same_clock_overwrites demoServer 5
           newResponseWriter newResponseWriter
           (initializeRequest "a") (initializeRequest "b")
           initializeParams initializeParams); reflexivity.
Defined.

(** A handler whose first parameter is a concrete context type is
    registered as taking a context, and a call of the tool panics inside
    [handlerValue.Call]. *)
Example concrete_context_handler_panics :
  (∃ s', registerSingleTool server fixtures.concreteContextTool
         = Return (s', None)
         ∧ takesContext (registeredTool s' "calculator/ctx") = true)
  ∧ ∃ inv,
      handleCallTool (registered server fixtures.concreteContextTool)
        newResponseWriter (callRequest "calculator/ctx" [])
      = ([inv], Panic).
Proof.
  split.
  - eexists. split; reflexivity.
  - eexists. reflexivity.
Qed.

End CalculatorFurther.
